(** * QR code generator / scanner: a shallow embedding of the Streamlit script

  The repository is one Python script, [QR_code-generator-encoder.py].  It
  has two tabs: "Generate QR Code" (lines 64-163) builds a QR symbol with the
  [qrcode] package and keeps the PNG in Streamlit's session state, and
  "Decode QR Code" (lines 166-221) hands an uploaded picture to OpenCV's
  [QRCodeDetector] through a temporary file.

  The script is modelled as a computation over an explicit world (session
  state, temporary files, what was rendered on the page) in a state and
  exception monad.  The three packages the script calls ([qrcode], [PIL],
  [cv2]) are not part of the repository: they enter as a record of
  operations, [Libs], and a theorem about the script holds for every such
  record.  Where a property is decided inside [qrcode] or [PIL] (which
  version is chosen, how the image is drawn), the package is modelled from
  the specification in [RefLib]. *)

From Stdlib Require Import ZArith Ascii String Lia.
From stdpp Require Import base option strings gmap list.

Local Open Scope Z_scope.

(** ** Python values the script handles

  A [str] is held as the bytes of its UTF-8 encoding; [len], indices and
  slices count code points, as Python's do. *)

(** A raised exception: its class and what [str(e)] returns. *)
Record Exn := mkExn { exn_class : string; exn_str : string }.

(** The double quote character, for the HTML snippets the script renders. *)
Definition dq : string := String "034"%char EmptyString.

(** [bool(s)] for a Python [str]: only the empty string is falsy. *)
Definition truthy (s : string) : bool :=
  match s with
  | EmptyString => false
  | String _ _ => true
  end.

(** [s.startswith(p)]. *)
Definition startswith (s p : string) : bool := String.prefix p s.

(** [s.startswith((p1, p2, ...))]: a tuple of prefixes. *)
Definition startswith_any (s : string) (ps : list string) : bool :=
  existsb (startswith s) ps.

(** A byte that continues a code point begun before it (binary 10xxxxxx). *)
Definition is_continuation (c : ascii) : bool :=
  (128 <=? nat_of_ascii c)%nat && (nat_of_ascii c <? 192)%nat.

(** [len(s)]: the number of code points. *)
Fixpoint str_len (s : string) : nat :=
  match s with
  | EmptyString => O
  | String c s' => if is_continuation c then str_len s' else S (str_len s')
  end.

(** [s[:n]]: the first [n] code points, each with its continuation bytes. *)
Fixpoint str_take (n : nat) (s : string) : string :=
  match s with
  | EmptyString => EmptyString
  | String c s' =>
      if is_continuation c then String c (str_take n s')
      else match n with
           | O => EmptyString
           | S n' => String c (str_take n' s')
           end
  end.

(** [s[0]]: the first character as a one-character string; [IndexError] on
  the empty string. *)
Definition str_first (s : string) : Exn + string :=
  match s with
  | EmptyString => inl (mkExn "IndexError" "string index out of range")
  | String _ _ => inr (str_take 1 s)
  end.

(** ** The [qrcode] package's data *)

Module qrcode.

(** [qrcode.constants]: the four error-correction levels, opaque tokens. *)
Inductive ErrorCorrection :=
| ERROR_CORRECT_L
| ERROR_CORRECT_M
| ERROR_CORRECT_Q
| ERROR_CORRECT_H.

(** A [qrcode.QRCode] object: the constructor's keyword arguments, the data
    added with [add_data], and what [make] computes ([modules_count] and
    [modules], [None] before [make]). *)
Record QRCode := mkQRCode {
  version : Z;
  error_correction : ErrorCorrection;
  box_size : Z;
  border : Z;
  data_list : list string;
  modules_count : Z;
  modules : option (list (list bool));
}.

(** [qrcode.QRCode(version=v, error_correction=ec, box_size=b, border=q)]. *)
Definition new (v : Z) (ec : ErrorCorrection) (b q : Z) : QRCode :=
  mkQRCode v ec b q [] 0 None.

(** [qr.add_data(data)]. *)
Definition add_data (qr : QRCode) (data : string) : QRCode :=
  mkQRCode (version qr) (error_correction qr) (box_size qr) (border qr)
           (data_list qr ++ [data]) (modules_count qr) None.

(** The text a symbol carries: its data segments in order. *)
Definition payload (qr : QRCode) : string :=
  String.concat "" (data_list qr).

(** Whether the module in row [r], column [c] is dark; outside the grid, and
    before [make], no module is. *)
Definition dark (qr : QRCode) (r c : Z) : bool :=
  match modules qr with
  | None => false
  | Some grid =>
      (0 <=? r) && (0 <=? c) &&
      match grid !! Z.to_nat r with
      | None => false
      | Some row => default false (row !! Z.to_nat c)
      end
  end.

End qrcode.

(** ** The external packages *)

(** What the script calls in [qrcode], [PIL] and [cv2], with the types only
  these packages look inside.  An operation that can raise returns
  [Exn + _]. *)
Class Libs := {
(** contents of a file or of an in-memory buffer *)
Bytes : Type;
(** [b""], what a freshly created file holds *)
Bytes_empty : Bytes;
(** a [PIL.Image.Image] *)
PilImage : Type;
(** a pixel value *)
Colour : Type;
(** the array [cv2.imread] returns *)
Mat : Type;
(** the corner points [detectAndDecode] returns *)
Points : Type;
(** [qr.make(fit=...)] *)
qr_make : qrcode.QRCode -> bool -> Exn + qrcode.QRCode;
(** [qr.make_image(fill_color=..., back_color=...)] *)
qr_make_image : qrcode.QRCode -> string -> string -> Exn + PilImage;
(** [ImageColor.getrgb] *)
getrgb : string -> Exn + Colour;
(** [Image.open(file)] *)
Image_open : Bytes -> Exn + PilImage;
(** [st.image(image, ...)] on a PIL image: [Image.open] is lazy, so it is
    here that the pixel data is loaded, and re-encoded for the browser;
    raises what PIL raises on data it cannot decode or encode *)
st_image : PilImage -> Exn + unit;
(** [image.save(target, format=...)]: the encoded file *)
Image_save : PilImage -> string -> Exn + Bytes;
(** [image.size] *)
Image_size : PilImage -> Z * Z;
(** [image.getpixel((x, y))], [None] outside the picture *)
Image_getpixel : PilImage -> Z -> Z -> option Colour;
(** [cv2.imread] on a file's contents; [None] when it cannot read them *)
imdecode : Bytes -> option Mat;
(** [cv2.QRCodeDetector().detectAndDecode(img)], [img] being [None] when
    [imread] returned [None]; the text and the corner points (the third
    result, the rectified symbol, is dropped by the script) *)
detectAndDecode : option Mat -> Exn + (string * option Points);
}.

(** ** The world the script runs in *)

Section Script.
Context {L : Libs}.

(** A value kept in [st.session_state]. *)
Inductive SSValue :=
| VImage (img : PilImage)
| VBytes (b : Bytes)
| VBool (b : bool)
| VStr (s : string).

(** What the script puts on the page, in order: the rendering calls with
    their arguments. *)
Inductive UIEvent :=
| StMarkdown (body : string)
| StSubheader (body : string)
| StTitle (body : string)
| StError (body : string)
| StInfo (body : string)
| StSuccess (body : string)
| StCode (body : string)
| StTextArea (label value key : string)
| StImage (image : PilImage) (caption : string)
| StImageBytes (data : Bytes) (caption : string)
| StImageUrl (url : string)
| StDownloadButton (label : string) (data : Bytes) (file_name mime : string).

Record World := mkWorld {
  (** [st.session_state]: survives from one run of the script to the next *)
  session_state : gmap string SSValue;
  (** the files of the temporary directory, by path *)
  fs : gmap string Bytes;
  (** the page as rendered so far *)
  ui : list UIEvent;
}.

(** What the user and the environment supply to one run of the script. *)
Record Inputs := mkInputs {
  qr_data : string;            (* st.text_area "Enter text or URL:" *)
  qr_size : Z;                 (* st.slider "Size:", 1..20 *)
  qr_border : Z;               (* st.slider "Border:", 0..10 *)
  error_correction : string;   (* st.selectbox "Error Correction:" *)
  fill_color : string;         (* st.color_picker "Fill Color:" *)
  back_color : string;         (* st.color_picker "Background Color:" *)
  generate_clicked : bool;     (* st.button "Generate QR Code" *)
  timestamp : string;          (* datetime.now().strftime("%Y%m%d_%H%M%S") *)
  uploaded_file : option Bytes;(* st.file_uploader *)
  copy_clicked : bool;         (* st.button "Copy to Clipboard" *)
  tmp_filename : string;       (* the path NamedTemporaryFile picks *)
  text_area_edit : option string;
                               (* what the user has typed into the box of
                                  line 204 since it was shown, if anything *)
}.

(** *** State and exceptions *)

(** A computation: it runs on a world, ends normally with a value or with a
    raised exception, and leaves a world either way. *)
Definition M (A : Type) : Type := World -> (Exn + A) * World.

#[export] Instance M_ret : MRet M := fun A x w => (inr x, w).

#[export] Instance M_bind : MBind M := fun A B f m w =>
  match m w with
  | (inl e, w') => (inl e, w')
  | (inr a, w') => f a w'
  end.

Definition raise {A} (e : Exn) : M A := fun w => (inl e, w).

(** The result of a call into a package. *)
Definition call {A} (r : Exn + A) : M A := fun w => (r, w).

(** [try: body  except Exception as e: handler(e)]. *)
Definition try_except {A} (body : M A) (handler : Exn -> M A) : M A :=
  fun w =>
    match body w with
    | (inl e, w') => handler e w'
    | (inr a, w') => (inr a, w')
    end.

Definition render (e : UIEvent) : M unit :=
  fun w => (inr tt, mkWorld (session_state w) (fs w) (ui w ++ [e])).

(** [st.session_state.<key> = v]. *)
Definition session_set (key : string) (v : SSValue) : M unit :=
  fun w => (inr tt, mkWorld (<[key := v]> (session_state w)) (fs w) (ui w)).

(** [st.session_state.<key>]: [AttributeError] when the key is not set. *)
Definition session_get (key : string) : M SSValue :=
  fun w =>
    match session_state w !! key with
    | Some v => (inr v, w)
    | None =>
        (inl (mkExn "AttributeError"
                ("st.session_state has no attribute " +:+ key)), w)
    end.

(** ['key' in st.session_state]. *)
Definition session_has (key : string) : M bool :=
  fun w => (inr (bool_decide (is_Some (session_state w !! key))), w).

(** [bool(v)] for a session value. *)
Definition truthy_value (v : SSValue) : bool :=
  match v with
  | VBool b => b
  | VStr s => truthy s
  | VImage _ | VBytes _ => true
  end.

(** [st.text_area(label, value=value, key=key)]: the call is rendered, and a
    widget that has a key keeps its current value in [st.session_state]
    under that key: the text the user has typed into the box, or [value]
    when the box is untouched.  (The script does not use what the call
    returns.) *)
Definition st_text_area (label value key : string) (edit : option string) : M unit :=
  fun w => (inr tt, mkWorld (<[key := VStr (default value edit)]> (session_state w)) (fs w)
                            (ui w ++ [StTextArea label value key])).

(** [tempfile.NamedTemporaryFile(delete=False, suffix='.png')]: an empty file
    at the path; leaving the [with] block closes it and keeps it. *)
Definition NamedTemporaryFile (path : string) : M unit :=
  fun w => (inr tt, mkWorld (session_state w) (<[path := Bytes_empty]> (fs w)) (ui w)).

(** [image.save(path)]: the path's suffix [.png] selects the PNG writer.  The
    file is written when the encoder succeeds; when it raises, a file that
    existed before the call stays (Pillow removes only a file it created). *)
Definition save_to_path (image : PilImage) (path : string) : M unit :=
  fun w =>
    match Image_save image "PNG" with
    | inl e => (inl e, w)
    | inr b => (inr tt, mkWorld (session_state w) (<[path := b]> (fs w)) (ui w))
    end.

(** [cv2.imread(path)]: [None] when the file is missing or unreadable. *)
Definition cv2_imread (path : string) : M (option Mat) :=
  fun w => (inr (fs w !! path ≫= imdecode), w).

(** [os.unlink(path)]. *)
Definition os_unlink (path : string) : M unit :=
  fun w =>
    match fs w !! path with
    | Some _ => (inr tt, mkWorld (session_state w) (delete path (fs w)) (ui w))
    | None =>
        (inl (mkExn "FileNotFoundError" ("No such file or directory: " +:+ path)), w)
    end.

(** ** The script *)

(** The selectbox's options (line 90). *)
Definition error_correction_options : list string :=
  ["L (7%)"; "M (15%)"; "Q (25%)"; "H (30%)"].

(** [error_dict] (lines 109-114). *)
Definition error_dict : gmap string qrcode.ErrorCorrection :=
  {[ "L" := qrcode.ERROR_CORRECT_L; "M" := qrcode.ERROR_CORRECT_M;
     "Q" := qrcode.ERROR_CORRECT_Q; "H" := qrcode.ERROR_CORRECT_H ]}.

(** Lines 107-124, "Get error correction level" and "Create QR code": the
    made [QRCode] object. *)
Definition create_qr_code (inp : Inputs) : M qrcode.QRCode :=
  error_level ← call (str_first (error_correction inp));
  let qr :=
    qrcode.new 1 (default qrcode.ERROR_CORRECT_M (error_dict !! error_level))
               (qr_size inp) (qr_border inp) in
  let qr := qrcode.add_data qr (qr_data inp) in
  call (qr_make qr true).

(** Lines 126-132, "Create image" and "Convert to bytes for display": the
    image and [img_byte_arr.getvalue()]. *)
Definition create_image (inp : Inputs) (qr : qrcode.QRCode) : M (PilImage * Bytes) :=
  qr_image ← call (qr_make_image qr (fill_color inp) (back_color inp));
  img_byte_arr ← call (Image_save qr_image "PNG");
  mret (qr_image, img_byte_arr).

(** Lines 102-137: the "Generate QR Code" button. *)
Definition generate_button (inp : Inputs) : M unit :=
  if generate_clicked inp then
    if negb (truthy (qr_data inp)) then
      render (StError "Please enter text or URL to generate QR code.")
    else
      qr ← create_qr_code inp;
      '(qr_image, qr_bytes) ← create_image inp qr;
      (* Store in session state for download *)
      session_set "qr_image" (VImage qr_image);;
      session_set "qr_bytes" (VBytes qr_bytes);;
      session_set "show_qr" (VBool true)
  else mret tt.

(** Lines 70-137: the left column of the first tab. *)
Definition tab1_col1 (inp : Inputs) : M unit :=
  render (StSubheader "QR Code Options");;
  generate_button inp.

(** Lines 139-163: the right column of the first tab, the preview. *)
Definition tab1_col2 (inp : Inputs) : M unit :=
  render (StSubheader "QR Code Preview");;
  has ← session_has "show_qr";
  show ← (if has : bool then v ← session_get "show_qr"; mret (truthy_value v)
          else mret false);
  if show : bool then
    v ← session_get "qr_bytes";
    match v with
    | VBytes qr_bytes =>
        render (StImageBytes qr_bytes "Generated QR Code");;
        let filename := "qrcode_" +:+ timestamp inp +:+ ".png" in
        render (StDownloadButton "Download QR Code" qr_bytes filename "image/png");;
        render (StInfo ("Encoded data: " +:+ str_take 50 (qr_data inp) +:+
                        (if (50 <? str_len (qr_data inp))%nat then "..." else "")))
    | _ => raise (mkExn "StreamlitAPIException" "unsupported image data")
    end
  else
    render (StInfo "QR code preview will appear here after generation.");;
    render (StImageUrl "https://via.placeholder.com/300x300?text=QR+Code+Preview").

(** Lines 63-163. *)
Definition tab1 (inp : Inputs) : M unit :=
  render (StMarkdown ("<h2 class=" +:+ dq +:+ "sub-header" +:+ dq +:+ ">Generate QR Code</h2>"));;
  tab1_col1 inp;;
  tab1_col2 inp.

(** The prefixes of line 212. *)
Definition url_prefixes : list string := ["http://"; "https://"; "www."].

(** Lines 198-215, "Display results". *)
Definition display_results (inp : Inputs) (decoded_data : string) : M unit :=
  if truthy decoded_data then
    render (StMarkdown ("<p class=" +:+ dq +:+ "success-text" +:+ dq +:+ ">QR Code detected!</p>"));;
    render (StSubheader "Decoded Data:");;
    st_text_area "" decoded_data "decoded_data" (text_area_edit inp);;
    (if copy_clicked inp then
       render (StCode decoded_data);;
       render (StSuccess "Copied to clipboard! (You can select and copy the text above)")
     else mret tt);;
    (* If it looks like a URL, offer to open it *)
    (if startswith_any decoded_data url_prefixes then
       render (StMarkdown ("[Open URL](" +:+ decoded_data +:+ ")"))
     else mret tt)
  else
    render (StError "No QR code detected in the image.").

(** Lines 184-218: the body of the [try]. *)
Definition process_image (inp : Inputs) (image : PilImage) : M unit :=
  (* Save to temp file for OpenCV processing *)
  NamedTemporaryFile (tmp_filename inp);;
  save_to_path image (tmp_filename inp);;
  (* Read with OpenCV *)
  img ← cv2_imread (tmp_filename inp);
  (* Detect and decode *)
  '(decoded_data, bbox) ← call (detectAndDecode img);
  display_results inp decoded_data;;
  (* Clean up temp file *)
  os_unlink (tmp_filename inp).

(** Lines 181-221: the right column of the second tab. *)
Definition tab2_col2 (inp : Inputs) (image : PilImage) : M unit :=
  try_except (process_image inp image)
    (fun e => render (StError ("Error processing image: " +:+ exn_str e))).

(** Lines 165-221. *)
Definition tab2 (inp : Inputs) : M unit :=
  render (StMarkdown ("<h2 class=" +:+ dq +:+ "sub-header" +:+ dq +:+ ">Decode QR Code</h2>"));;
  match uploaded_file inp with
  | None => mret tt
  | Some file =>
      (* Display uploaded image *)
      image ← call (Image_open file);
      call (st_image image);;
      render (StImage image "Uploaded Image");;
      tab2_col2 inp image
  end.

(** The text of lines 226-241, line by line. *)
Definition about_lines : list string :=
  [""; "    This app allows you to:";
   "    - Generate QR codes with custom settings";
   "    - Decode QR codes from uploaded images";
   "    ";
   "    ### How to use";
   "    1. Select the tab for the function you want to use";
   "    2. Follow the instructions on each tab";
   "    3. Download or copy the results as needed";
   "    ";
   "    ### Technologies Used";
   "    - Streamlit";
   "    - qrcode";
   "    - OpenCV";
   "    - PIL (Pillow)";
   "    "].

(** Lines 223-244 (the rocket emoji that ends line 244 is left out). *)
Definition sidebar : M unit :=
  render (StTitle "About");;
  render (StMarkdown (String.concat (String "010"%char EmptyString) about_lines));;
  render (StMarkdown "---");;
  render (StMarkdown "Developed by Rafiha Siddiqui ").

(** The whole script, top to bottom: an exception nobody catches ends the
    run where it is raised. *)
Definition script (inp : Inputs) : M unit :=
  tab1 inp;;
  tab2 inp;;
  sidebar.

(** One run of the script: the page starts empty, session state and files
    are those the previous run left.  The world returned is the one the
    script's last statement leaves; what Streamlit does between two runs
    (it forgets the value of a keyed widget that the run did not render)
    is not part of the script. *)
Definition run (inp : Inputs) (w : World) : (Exn + unit) * World :=
  script inp (mkWorld (session_state w) (fs w) []).

End Script.

Arguments World : clear implicits.
Arguments UIEvent : clear implicits.
Arguments SSValue : clear implicits.
Arguments Inputs : clear implicits.

(** ** The packages, modelled

  [qrcode], [PIL] and [cv2] are not in the repository.  [RefLib] models
  what the script needs of them, small enough to run inside Rocq.  The
  encoder follows the specification's section 4.1: the version is the
  smallest that can hold the content, and the picture is drawn module by
  module.  What ISO/IEC 18004 fixes beyond that (the capacity of a version,
  the side of its grid, the pattern of its modules) is a parameter, a
  [Symbology].  Pictures are drawings (a background and filled rectangles)
  and PNG is a container that keeps the picture as it is.  The scanner is a
  stand-in that reads the symbol the drawing was made from and locates no
  finder pattern: it serves the concrete runs only, and no theorem is about
  what it answers. *)

Module RefLib.

Record Rect := mkRect { rx0 : Z; ry0 : Z; rx1 : Z; ry1 : Z; rpaint : string }.

Record Picture := mkPicture {
  pic_mode : string;                (* "RGB", "L", "CMYK", ... *)
  pic_width : Z;
  pic_height : Z;
  pic_back : string;                (* the colour the canvas was created with *)
  pic_rects : list Rect;            (* what was drawn, in drawing order *)
  pic_symbol : option string;       (* the QR symbol on it and its text *)
}.

(** A file is a picture in some raster format, or something else. *)
Inductive File :=
| ImageFile (format : string) (pic : Picture)
| OtherFile (raw : string).

#[export] Instance Rect_eq_dec : EqDecision Rect.
Proof. solve_decision. Defined.
#[export] Instance Picture_eq_dec : EqDecision Picture.
Proof. solve_decision. Defined.
#[export] Instance File_eq_dec : EqDecision File.
Proof. solve_decision. Defined.

(** *** qrcode *)

(** What the standard fixes and the package implements: whether a version
    can hold the data at a level, the number of modules a side of a version,
    and the pattern of dark modules, row by row. *)
Record Symbology := mkSymbology {
  can_hold : qrcode.ErrorCorrection -> Z -> list string -> bool;
  grid_dimension : Z -> Z;
  module_grid : qrcode.ErrorCorrection -> Z -> list string -> list (list bool);
}.

(** Modelled from the spec: [QRCode.best_fit] of the package [qrcode], which
    is not part of the repository.  Section 4.1, step 1: "Select the
    smallest QR version (grid size) that can hold content encoded under
    errorCorrectionLevel, without exceeding version 40".  The versions are
    tried in order from [start] on; [fuel] is the number of versions left
    to try. *)
Fixpoint best_fit (sym : Symbology) (ec : qrcode.ErrorCorrection) (data : list string)
         (fuel : nat) (start : Z) : option Z :=
  match fuel with
  | O => None
  | S fuel' =>
      if can_hold sym ec start data then Some start
      else best_fit sym ec data fuel' (start + 1)
  end.

(** The object once its version is settled: [modules_count] and [modules]
    are those of the version. *)
Definition made (sym : Symbology) (qr : qrcode.QRCode) (v : Z) : qrcode.QRCode :=
  qrcode.mkQRCode v (qrcode.error_correction qr) (qrcode.box_size qr)
    (qrcode.border qr) (qrcode.data_list qr) (grid_dimension sym v)
    (Some (module_grid sym (qrcode.error_correction qr) v (qrcode.data_list qr))).

(** Modelled from the spec: [QRCode.make] of the package [qrcode], which is
    not part of the repository.  Section 4.1: with [fit] the version is
    searched from the constructor's version up to 40 ("auto-fit"), and the
    call "fails ... if content exceeds the maximum capacity of the largest
    QR version at the given error-correction level"; without [fit] the
    constructor's version is kept, and the call fails if it cannot hold the
    content. *)
Definition make (sym : Symbology) (qr : qrcode.QRCode) (fit : bool) : Exn + qrcode.QRCode :=
  let v := qrcode.version qr in
  if fit then
    match best_fit sym (qrcode.error_correction qr) (qrcode.data_list qr)
                   (Z.to_nat (41 - v)) v with
    | Some v' => inr (made sym qr v')
    | None => inl (mkExn "DataOverflowError" "")
    end
  else if can_hold sym (qrcode.error_correction qr) v (qrcode.data_list qr) then
    inr (made sym qr v)
  else inl (mkExn "DataOverflowError" "").

(** [ImageColor.getrgb]: hexadecimal colours only, kept as written. *)
Definition parse_colour (colour : string) : Exn + string :=
  if startswith colour "#" then inr colour
  else inl (mkExn "ValueError" ("unknown color specifier: " +:+ colour)).

(** The filled box of every dark module, row by row: the module in row [r],
    column [c] has its box [border + c] boxes from the left and [border + r]
    boxes from the top. *)
Definition module_rects (qr : qrcode.QRCode) (fill : string) : list Rect :=
  let n := qrcode.modules_count qr in
  let b := qrcode.box_size qr in
  let q := qrcode.border qr in
  r ← seqZ 0 n;
  c ← seqZ 0 n;
  if qrcode.dark qr r c
  then [mkRect ((c + q) * b) ((r + q) * b) ((c + q) * b + b - 1) ((r + q) * b + b - 1) fill]
  else [].

(** Modelled from the spec: [QRCode.make_image] of the package [qrcode],
    which is not part of the repository.  Section 4.1, steps 3 and 4:
    "each module occupies a moduleSize x moduleSize pixel block in
    foregroundColor (dark modules) or backgroundColor (light modules),
    surrounded by borderWidth modules of background-colored quiet zone on
    all four sides", the side being "moduleSize x (gridDimension +
    2 x borderWidth)"; the call fails "if color values are malformed".  The
    canvas is created in the background colour and the box of each dark
    module is filled.  ([pic_symbol] is what the stand-in scanner reads.) *)
Definition make_image (qr : qrcode.QRCode) (fill back : string) : Exn + Picture :=
  match qrcode.modules qr with
  | None => inl (mkExn "ValueError" "no data to draw")
  | Some _ =>
      match parse_colour fill, parse_colour back with
      | inl e, _ => inl e
      | _, inl e => inl e
      | inr f, inr k =>
          let side := (qrcode.modules_count qr + qrcode.border qr * 2) * qrcode.box_size qr in
          inr (mkPicture "RGB" side side k (module_rects qr f)
                 (if decide (f = k) then None else Some (qrcode.payload qr)))
      end
  end.

(** *** PIL *)

Definition covers (x y : Z) (r : Rect) : bool :=
  (rx0 r <=? x) && (x <=? rx1 r) && (ry0 r <=? y) && (y <=? ry1 r).

Definition getpixel (pic : Picture) (x y : Z) : option string :=
  if (0 <=? x) && (x <? pic_width pic) && (0 <=? y) && (y <? pic_height pic)
  then Some (fold_left (fun col r => if covers x y r then rpaint r else col)
                       (pic_rects pic) (pic_back pic))
  else None.

(** Modelled from the spec: [Image.open] of [PIL], which is not part of the
    repository.  Section 4.2, step 1: the bytes are parsed "into a pixel
    buffer using the image's embedded format signature"; what is no picture
    is refused. *)
Definition open (f : File) : Exn + Picture :=
  match f with
  | ImageFile _ pic => inr pic
  | OtherFile _ => inl (mkExn "UnidentifiedImageError" "cannot identify image file")
  end.

(** Modelled from the spec: [Image.save] of [PIL], which is not part of the
    repository.  Section 6: the output is "raster image bytes in a lossless
    format (PNG-equivalent)": the file holds the picture as it is.  The PNG
    writer has no CMYK mode. *)
Definition save (pic : Picture) (format : string) : Exn + File :=
  if decide (format = "PNG" ∧ pic_mode pic = "CMYK")
  then inl (mkExn "OSError" "cannot write mode CMYK as PNG")
  else inr (ImageFile format pic).

(** *** cv2 *)

Definition decode_file (f : File) : option Picture :=
  match f with
  | ImageFile _ pic => Some pic
  | OtherFile _ => None
  end.

Definition detect (img : option Picture) : Exn + (string * option unit) :=
  match img with
  | None => inl (mkExn "cv2.error" "(-215:Assertion failed) !img.empty() in function 'detectAndDecode'")
  | Some pic =>
      match pic_symbol pic with
      | Some text => inr (text, Some tt)
      | None => inr ("", None)
      end
  end.

Definition libs_with (sym : Symbology) : Libs := {|
  Bytes := File;
  Bytes_empty := OtherFile "";
  PilImage := Picture;
  Colour := string;
  Mat := Picture;
  Points := unit;
  qr_make := make sym;
  qr_make_image := make_image;
  getrgb := parse_colour;
  Image_open := open;
  st_image := fun _ => inr tt;
  Image_save := save;
  Image_size := fun pic => (pic_width pic, pic_height pic);
  Image_getpixel := getpixel;
  imdecode := decode_file;
  detectAndDecode := detect;
|}.

(** *** A sample symbology

  Byte mode of ISO/IEC 18004: a text of [n] bytes takes 4 bits for the mode,
  8 or 16 for the count and 8 a byte; a version holds 8 bits for each of its
  data codewords.  The pattern of modules is a stand-in (an always-dark
  corner, then the text's bits row by row). *)

(** The data codewords of the versions 1 to 40 at the levels L, M, Q, H. *)
Definition data_codewords : list (Z * Z * Z * Z) :=
  [(19, 16, 13, 9); (34, 28, 22, 16); (55, 44, 34, 26); (80, 64, 48, 36);
   (108, 86, 62, 46); (136, 108, 76, 60); (156, 124, 88, 66); (194, 154, 110, 86);
   (232, 182, 132, 100); (274, 216, 154, 122); (324, 254, 180, 140);
   (370, 290, 206, 158); (428, 334, 244, 180); (461, 365, 261, 197);
   (523, 415, 295, 223); (589, 453, 325, 253); (647, 507, 367, 283);
   (721, 563, 397, 313); (795, 627, 445, 341); (861, 669, 485, 385);
   (932, 714, 512, 406); (1006, 782, 568, 442); (1094, 860, 614, 464);
   (1174, 914, 664, 514); (1276, 1000, 718, 538); (1370, 1062, 754, 596);
   (1468, 1128, 808, 628); (1531, 1193, 871, 661); (1631, 1267, 911, 701);
   (1735, 1373, 985, 745); (1843, 1455, 1033, 793); (1955, 1541, 1115, 845);
   (2071, 1631, 1171, 901); (2191, 1725, 1231, 961); (2306, 1812, 1286, 986);
   (2434, 1914, 1354, 1054); (2566, 1992, 1426, 1096); (2702, 2102, 1502, 1142);
   (2812, 2216, 1582, 1222); (2956, 2334, 1666, 1276)].

Definition bit_limit (ec : qrcode.ErrorCorrection) (v : Z) : Z :=
  match data_codewords !! Z.to_nat (v - 1) with
  | Some (l, m, q, h) =>
      8 * match ec with
          | qrcode.ERROR_CORRECT_L => l
          | qrcode.ERROR_CORRECT_M => m
          | qrcode.ERROR_CORRECT_Q => q
          | qrcode.ERROR_CORRECT_H => h
          end
  | None => 0
  end.

Definition needed_bits (v : Z) (data : list string) : Z :=
  4 + (if v <=? 9 then 8 else 16) + 8 * Z.of_nat (String.length (String.concat "" data)).

Definition fits (ec : qrcode.ErrorCorrection) (v : Z) (data : list string) : bool :=
  (1 <=? v) && (needed_bits v data <=? bit_limit ec v).

Definition grid_side (v : Z) : Z := 4 * v + 17.

Definition bits_of_ascii (a : ascii) : list bool :=
  let (b0, b1, b2, b3, b4, b5, b6, b7) := a in [b0; b1; b2; b3; b4; b5; b6; b7].

Fixpoint text_bits (s : string) : list bool :=
  match s with
  | EmptyString => []
  | String a s' => bits_of_ascii a ++ text_bits s'
  end.

Definition place (n : Z) (text : string) : list (list bool) :=
  let stream := true :: text_bits text in
  (fun r => (fun c => nth (Z.to_nat (r * n + c)) stream false) <$> seqZ 0 n)
    <$> seqZ 0 n.

Definition byte_mode : Symbology :=
  mkSymbology fits grid_side
    (fun _ v data => place (grid_side v) (String.concat "" data)).

(** The packages with the sample symbology: what the concrete runs below
    run on. *)
#[export] Instance libs : Libs := libs_with byte_mode.

(** *** Sample files and worlds *)

(** A fresh session: nothing stored, no temporary file, an empty page. *)
Definition fresh_world : World libs := mkWorld ∅ ∅ [].

(** A 64 x 64 picture of one colour. *)
Definition solid_picture (mode : string) : Picture :=
  mkPicture mode 64 64 "#3366CC" [] None.

(** A symbol that encodes the empty text, drawn by the package itself. *)
Definition empty_symbol_picture : Picture :=
  match make byte_mode (qrcode.new 1 qrcode.ERROR_CORRECT_M 10 4) true with
  | inr qr =>
      match make_image qr "#000000" "#FFFFFF" with
      | inr pic => pic
      | inl _ => solid_picture "RGB"
      end
  | inl _ => solid_picture "RGB"
  end.

(** A picture that shows a symbol with the given text. *)
Definition symbol_picture (text : string) : Picture :=
  mkPicture "RGB" 64 64 "#FFFFFF" [] (Some text).

End RefLib.

(** ** The specification's vocabulary, read off the page *)

(** The four levels of the specification, the selectbox option of each
  (line 90) and the constant [error_dict] gives it (lines 109-114). *)
Inductive Level := level_L | level_M | level_Q | level_H.

Definition option_label (lv : Level) : string :=
  match lv with
  | level_L => "L (7%)"
  | level_M => "M (15%)"
  | level_Q => "Q (25%)"
  | level_H => "H (30%)"
  end.

Definition level_constant (lv : Level) : qrcode.ErrorCorrection :=
  match lv with
  | level_L => qrcode.ERROR_CORRECT_L
  | level_M => qrcode.ERROR_CORRECT_M
  | level_Q => qrcode.ERROR_CORRECT_Q
  | level_H => qrcode.ERROR_CORRECT_H
  end.

Section Vocabulary.
Context {L : Libs}.

(** [Found(text)]: the success branch shows the decoded text (line 204). *)
Definition shows_found (page : list (UIEvent L)) (text : string) : Prop :=
  StTextArea "" text "decoded_data" ∈ page.

(** [NotFound] (line 215). *)
Definition shows_not_found (page : list (UIEvent L)) : Prop :=
  StError "No QR code detected in the image." ∈ page.

(** [ImageDecodeError] with its cause (line 221). *)
Definition shows_image_error (page : list (UIEvent L)) (cause : string) : Prop :=
  StError ("Error processing image: " +:+ cause) ∈ page.

(** [ValidationError] (line 105). *)
Definition shows_validation_error (page : list (UIEvent L)) : Prop :=
  StError "Please enter text or URL to generate QR code." ∈ page.

(** The URL-like flag: the page offers the text as a link (line 213). *)
Definition offers_url (page : list (UIEvent L)) (text : string) : Prop :=
  StMarkdown ("[Open URL](" +:+ text +:+ ")") ∈ page.

(** What [display_results] renders for a non-empty text. *)
Definition found_page (inp : Inputs L) (text : string) : list (UIEvent L) :=
  [StMarkdown ("<p class=" +:+ dq +:+ "success-text" +:+ dq +:+ ">QR Code detected!</p>");
   StSubheader "Decoded Data:";
   StTextArea "" text "decoded_data"]
  ++ (if copy_clicked inp
      then [StCode text;
            StSuccess "Copied to clipboard! (You can select and copy the text above)"]
      else [])
  ++ (if startswith_any text url_prefixes
      then [StMarkdown ("[Open URL](" +:+ text +:+ ")")]
      else []).

(** The page the results block renders for a decoded text. *)
Definition results_page (inp : Inputs L) (decoded_data : string) : list (UIEvent L) :=
  if truthy decoded_data then found_page inp decoded_data
  else [StError "No QR code detected in the image."].

(** The heading of the second tab (line 167). *)
Definition tab2_heading : UIEvent L :=
  StMarkdown ("<h2 class=" +:+ dq +:+ "sub-header" +:+ dq +:+ ">Decode QR Code</h2>").

(** The world after a computation rendered [page], with given session state
    and files. *)
Definition after (w : World L) (ss : gmap string (SSValue L))
           (files : gmap string Bytes) (page : list (UIEvent L)) : World L :=
  mkWorld ss files (ui w ++ page).

(** The opened picture goes all the way to the detector, which answers
    [text] and [pts]: PIL writes it as a PNG that OpenCV reads. *)
Definition scans_as (image : PilImage) (text : string) (pts : option Points) : Prop :=
  ∃ png mat, Image_save image "PNG" = inr png ∧ imdecode png = Some mat ∧
             detectAndDecode (Some mat) = inr (text, pts).

(** The same for an uploaded file that PIL opens as [image] and that the
    page can display. *)
Definition reads_as (file : Bytes) (image : PilImage) (text : string)
           (pts : option Points) : Prop :=
  Image_open file = inr image ∧ st_image image = inr tt ∧ scans_as image text pts.


(** Session state once the results block has run on a decoded text: the
    text area of line 204, rendered for a non-empty text, has put its value
    under its key. *)
Definition widget_state (inp : Inputs L) (text : string) (ss : gmap string (SSValue L))
  : gmap string (SSValue L) :=
  if truthy text then <["decoded_data" := VStr (default text (text_area_edit inp))]> ss
  else ss.

(** A request as the specification writes it, with the default colours;
    the button was pressed. *)
Definition encode_request (content : string) (lv : Level) (moduleSize borderWidth : Z)
  : Inputs L :=
  mkInputs content moduleSize borderWidth (option_label lv) "#000000" "#FFFFFF"
           true "" None false "" None.

(** A second run of the script in which the user uploads [file]. *)
Definition decode_request (file : Bytes) (tmp : string) : Inputs L :=
  mkInputs "" 10 4 "M (15%)" "#000000" "#FFFFFF" false "" (Some file) false tmp None.

(** Session state after lines 135-137 stored an image and its PNG. *)
Definition stored (img : PilImage) (png : Bytes) (ss : gmap string (SSValue L))
  : gmap string (SSValue L) :=
  <["show_qr" := VBool true]> (<["qr_bytes" := VBytes png]> (<["qr_image" := VImage img]> ss)).

(** The [QRCode] object lines 117-123 build before [make], for the constant
    [ec] found in [error_dict]. *)
Definition requested_qr (inp : Inputs L) (ec : qrcode.ErrorCorrection) : qrcode.QRCode :=
  qrcode.add_data (qrcode.new 1 ec (qr_size inp) (qr_border inp)) (qr_data inp).

(** "No shared mutable state between invocations", read on runs of the
    script: how a run ends and what it renders depend on its inputs alone,
    and a run leaves session state as it found it. *)
Definition no_shared_state : Prop :=
  ∀ (inp : Inputs L) (w w' : World L),
    (run inp w).1 = (run inp w').1 ∧
    ui (run inp w).2 = ui (run inp w').2 ∧
    session_state (run inp w).2 = session_state w.

End Vocabulary.

(** ** Runs in sequence and the stored preview *)

Section RunsVocabulary.
Context {L : Libs}.

(** Several runs of the script one after the other, each on the session
    state and the files the one before left. *)
Fixpoint runs (inps : list (Inputs L)) (w : World L) : World L :=
  match inps with
  | [] => w
  | inp :: rest => runs rest (run inp w).2
  end.

(** Session state holds a generated code: the flag, the image and the PNG of
    that image (lines 135-137). *)
Definition holds_preview (ss : gmap string (SSValue L)) (img : PilImage) (png : Bytes)
  : Prop :=
  ss !! "show_qr" = Some (VBool true) ∧
  ss !! "qr_image" = Some (VImage img) ∧
  ss !! "qr_bytes" = Some (VBytes png) ∧
  Image_save img "PNG" = inr png.

(** Either nothing was generated yet or a generated code is held. *)
Definition session_consistent (ss : gmap string (SSValue L)) : Prop :=
  ss !! "show_qr" = None ∨ ∃ img png, holds_preview ss img png.

(** The heading of the first tab (line 65). *)
Definition tab1_heading : UIEvent L :=
  StMarkdown ("<h2 class=" +:+ dq +:+ "sub-header" +:+ dq +:+ ">Generate QR Code</h2>").

(** The text of line 159. *)
Definition preview_caption (data : string) : string :=
  "Encoded data: " +:+ str_take 50 data +:+
  (if (50 <? str_len data)%nat then "..." else "").

(** The preview column when a code is stored (lines 141-159). *)
Definition preview_page (inp : Inputs L) (png : Bytes) : list (UIEvent L) :=
  [StSubheader "QR Code Preview";
   StImageBytes png "Generated QR Code";
   StDownloadButton "Download QR Code" png ("qrcode_" +:+ timestamp inp +:+ ".png") "image/png";
   StInfo (preview_caption (qr_data inp))].

(** The preview column when nothing is stored (lines 141, 160-163). *)
Definition placeholder_page : list (UIEvent L) :=
  [StSubheader "QR Code Preview";
   StInfo "QR code preview will appear here after generation.";
   StImageUrl "https://via.placeholder.com/300x300?text=QR+Code+Preview"].

End RunsVocabulary.

(** ** Requests to the script running on the modelled packages *)

(** The user uploads [file]; the temporary file gets the path [tmp]. *)
Definition ref_upload (file : RefLib.File) (tmp : string) : Inputs RefLib.libs :=
  decode_request (L := RefLib.libs) file tmp.

(** The text of the symbol on a stored picture file, if any. *)
Definition stored_symbol (v : option (SSValue RefLib.libs)) : option string :=
  match v with
  | Some (VBytes (RefLib.ImageFile _ pic)) => RefLib.pic_symbol pic
  | _ => None
  end.

(** The user asks for a QR code. *)
Definition ref_generate (content : string) (lv : Level) (moduleSize borderWidth : Z)
  : Inputs RefLib.libs :=
  encode_request (L := RefLib.libs) content lv moduleSize borderWidth.

(** ** What a run may touch *)

Section FrameVocabulary.
Context {L : Libs}.

(** The keys of session state the script writes: the three it assigns
    (lines 135-137) and the key of the text area (line 204). *)
Definition session_keys : list string :=
  ["qr_image"; "qr_bytes"; "show_qr"; "decoded_data"].

(** From [w] to [w'] no file but the temporary one and no session entry but
    these four has changed. *)
Definition within_frame (inp : Inputs L) (w w' : World L) : Prop :=
  (∀ path, path ≠ tmp_filename inp → fs w' !! path = fs w !! path) ∧
  (∀ key, key ∉ session_keys → session_state w' !! key = session_state w !! key).

End FrameVocabulary.

(** ** More sample requests *)

(** A content of 3000 characters, more than any version holds in byte
    mode. *)
Definition long_content : string :=
  String.concat "" (replicate 300 "abcdefghij").

(** The symbol, the picture and the session of the modelled packages for
    "TEST123" at level M, module size 10 and border 4. *)
Definition test123_qr : qrcode.QRCode :=
  RefLib.made RefLib.byte_mode (requested_qr (ref_generate "TEST123" level_M 10 4) qrcode.ERROR_CORRECT_M) 1.

Definition test123_picture : RefLib.Picture :=
  RefLib.mkPicture "RGB" 290 290 "#FFFFFF" (RefLib.module_rects test123_qr "#000000")
                   (Some "TEST123").

Definition test123_world : World RefLib.libs :=
  mkWorld (stored (L := RefLib.libs) test123_picture
                  (RefLib.ImageFile "PNG" test123_picture) ∅) ∅ [].

(** * Properties of the script *)

(** Unfolds the monad's plumbing so that a run computes. *)
Ltac unfold_script :=
unfold mbind, M_bind, mret, M_ret, call, render, raise, try_except,
  session_set, session_get, session_has, st_text_area, NamedTemporaryFile,
  save_to_path, cv2_imread, os_unlink, after in *.

Section ScriptFacts.
Context {L : Libs}.
Implicit Types (inp : Inputs L) (w : World L) (page : list (UIEvent L)).

Lemma truthy_nonempty (s : string) : truthy s = true ↔ s ≠ "".
Proof. destruct s; simpl; split; intros; congruence. Qed.

Lemma truthy_empty (s : string) : truthy s = false ↔ s = "".
Proof. destruct s; simpl; split; intros; congruence. Qed.

Lemma display_results_run inp decoded_data w :
  display_results inp decoded_data w =
    (inr tt, after w (widget_state inp decoded_data (session_state w)) (fs w)
               (results_page inp decoded_data)).
Proof.
  unfold display_results, results_page, found_page, widget_state.
  destruct (truthy decoded_data); [|reflexivity].
  destruct (copy_clicked inp), (startswith_any decoded_data url_prefixes);
    unfold_script; simpl; repeat rewrite <- app_assoc; reflexivity.
Qed.

(** The temporary file is gone once it was written and unlinked. *)
Lemma delete_written (files : gmap string Bytes) (path : string) (b b' : Bytes) :
  delete path (<[path := b]> (<[path := b']> files)) = delete path files.
Proof. rewrite !delete_insert_eq. reflexivity. Qed.

(** The [try] body when every call into the packages answers. *)
Lemma process_image_run inp w image png mat text pts :
  Image_save image "PNG" = inr png →
  imdecode png = Some mat →
  detectAndDecode (Some mat) = inr (text, pts) →
  process_image inp image w =
    (inr tt, after w (widget_state inp text (session_state w))
               (delete (tmp_filename inp) (fs w)) (results_page inp text)).
Proof.
  intros Hsave Hread Hdet. unfold process_image.
  unfold_script; simpl. rewrite Hsave; simpl.
  rewrite lookup_insert_eq; simpl. rewrite Hread, Hdet.
  rewrite display_results_run. unfold after; simpl.
  rewrite lookup_insert_eq, delete_written. reflexivity.
Qed.

(** The right column of the second tab on a picture that reaches the
    detector. *)
Lemma tab2_col2_run inp w image text pts :
  scans_as image text pts →
  tab2_col2 inp image w =
    (inr tt, after w (widget_state inp text (session_state w))
               (delete (tmp_filename inp) (fs w)) (results_page inp text)).
Proof.
  intros (png & mat & Hsave & Hread & Hdet).
  unfold tab2_col2, try_except.
  erewrite process_image_run by eassumption. reflexivity.
Qed.

(** The second tab, down to its right column. *)
Lemma tab2_unfold inp w :
  tab2 inp w =
    match uploaded_file inp with
    | None => (inr tt, after w (session_state w) (fs w) [tab2_heading])
    | Some file =>
        match Image_open file with
        | inl e => (inl e, after w (session_state w) (fs w) [tab2_heading])
        | inr image =>
            match st_image image with
            | inl e => (inl e, after w (session_state w) (fs w) [tab2_heading])
            | inr _ =>
                tab2_col2 inp image
                  (after w (session_state w) (fs w)
                     [tab2_heading; StImage image "Uploaded Image"])
            end
        end
    end.
Proof.
  unfold tab2. destruct (uploaded_file inp) as [file|]; [|reflexivity].
  unfold mbind, M_bind, call, render, after; simpl.
  destruct (Image_open file); [reflexivity|].
  destruct (st_image _) as [e|[]]; [reflexivity|].
  rewrite <- app_assoc. reflexivity.
Qed.

(** The second tab on an upload that reaches the detector. *)
Lemma tab2_run inp w file image text pts :
  uploaded_file inp = Some file →
  reads_as file image text pts →
  tab2 inp w =
    (inr tt, after w (widget_state inp text (session_state w))
               (delete (tmp_filename inp) (fs w))
               ([tab2_heading; StImage image "Uploaded Image"] ++ results_page inp text)).
Proof.
  intros Hup (Hopen & Hshow & Hscan).
  rewrite tab2_unfold, Hup, Hopen, Hshow.
  erewrite tab2_col2_run by eassumption.
  unfold after; simpl. repeat rewrite <- app_assoc. reflexivity.
Qed.

End ScriptFacts.

(** ** The decode tab: found, not found, URL-like *)

Section DecodeOutcomes.
Context {L : Libs}.
Implicit Types (inp : Inputs L) (w : World L) (page : list (UIEvent L)).

Lemma found_page_shows_found inp text : shows_found (found_page inp text) text.
Proof. unfold shows_found, found_page. set_solver. Qed.

(** The link is on the results page exactly when the prefix test passed. *)
Lemma found_page_offers_url inp text :
  offers_url (found_page inp text) text ↔ startswith_any text url_prefixes = true.
Proof.
  unfold offers_url, found_page.
  destruct (copy_clicked inp), (startswith_any text url_prefixes); simpl;
    rewrite ?elem_of_cons, ?elem_of_nil; split; intros H;
    solve [ auto 10 | discriminate | intuition discriminate ].
Qed.

Lemma startswith_any_url text :
  startswith_any text url_prefixes = true ↔
  String.prefix "http://" text = true ∨ String.prefix "https://" text = true ∨
  String.prefix "www." text = true.
Proof.
  unfold startswith_any, url_prefixes, startswith; simpl.
  rewrite !orb_true_iff. intuition discriminate.
Qed.



(** C8: a decoded text is offered as a link exactly when it starts with
    [http://], [https://] or [www.]; nothing else about the text is looked
    at.  So [https://example.com] is found and offered as a link, and
    [hello world] is found and not offered.  (The text area that shows the
    text keeps its value in session state under [decoded_data].) *)
Theorem url_flag_is_a_prefix_check inp w file image text pts :
  uploaded_file inp = Some file →
  reads_as file image text pts →
  text ≠ "" →
  ∃ page,
    tab2 inp w =
      (inr tt, after w (<["decoded_data" := VStr (default text (text_area_edit inp))]>
                          (session_state w))
                 (delete (tmp_filename inp) (fs w))
                 ([tab2_heading; StImage image "Uploaded Image"] ++ page)) ∧
    shows_found page text ∧
    (offers_url page text ↔
       String.prefix "http://" text = true ∨ String.prefix "https://" text = true ∨
       String.prefix "www." text = true) ∧
    (text = "https://example.com" → offers_url page text) ∧
    (text = "hello world" → ¬ offers_url page text).
Proof.
  intros Hup Hreads Hne.
  exists (found_page inp text). split.
  - rewrite (tab2_run inp w file image text pts Hup Hreads).
    unfold results_page, widget_state. apply truthy_nonempty in Hne. rewrite Hne.
    reflexivity.
  - split; [apply found_page_shows_found|].
    split; [rewrite found_page_offers_url; apply startswith_any_url|].
    split; intros ->; rewrite found_page_offers_url; [reflexivity | discriminate].
Qed.

(** C10: the results block looks only at the truthiness of the decoded
    text.  When the detector located a symbol (corner points [pts]) whose text
    is empty, the right column reports "No QR code detected in the image.",
    and it is the very run of a picture in which nothing was located: the
    two cannot be told apart. *)
Theorem empty_payload_is_reported_as_not_found inp w image pts image' :
  scans_as image "" (Some pts) →
  scans_as image' "" None →
  tab2_col2 inp image w =
    (inr tt, after w (session_state w) (delete (tmp_filename inp) (fs w))
               [StError "No QR code detected in the image."]) ∧
  tab2_col2 inp image w = tab2_col2 inp image' w.
Proof.
  intros Hscan Hscan'.
  rewrite (tab2_col2_run inp w image "" (Some pts) Hscan).
  rewrite (tab2_col2_run inp w image' "" None Hscan').
  split; reflexivity.
Qed.

End DecodeOutcomes.

(** ** The decode tab: errors and the temporary file *)

Section DecodeErrors.
Context {L : Libs}.
Implicit Types (inp : Inputs L) (w : World L) (page : list (UIEvent L)).

(** On the paths that end normally the temporary file is removed: with a
    path that was free before, the files are what they were. *)
Lemma temp_file_removed_after_normal_run inp w image text pts :
  scans_as image text pts →
  fs w !! tmp_filename inp = None →
  fs (tab2_col2 inp image w).2 = fs w.
Proof.
  intros Hscan Hfree. rewrite (tab2_col2_run inp w image text pts Hscan). simpl.
  apply delete_id, Hfree.
Qed.

(** The writer raises: the handler reports it, the empty file stays. *)
Lemma save_error_run inp w image e :
  Image_save image "PNG" = inl e →
  tab2_col2 inp image w =
    (inr tt, after w (session_state w) (<[tmp_filename inp := Bytes_empty]> (fs w))
               [StError ("Error processing image: " +:+ exn_str e)]).
Proof.
  intros Hsave. unfold tab2_col2, process_image. unfold_script; simpl.
  rewrite Hsave. reflexivity.
Qed.

(** The detector raises (as it does on what [imread] could not read): the
    handler reports it, the written file stays. *)
Lemma detect_error_run inp w image png e :
  Image_save image "PNG" = inr png →
  detectAndDecode (imdecode png) = inl e →
  tab2_col2 inp image w =
    (inr tt, after w (session_state w) (<[tmp_filename inp := png]> (fs w))
               [StError ("Error processing image: " +:+ exn_str e)]).
Proof.
  intros Hsave Hdet. unfold tab2_col2, process_image. unfold_script; simpl.
  rewrite Hsave; simpl. rewrite lookup_insert_eq; simpl. rewrite Hdet.
  rewrite insert_insert_eq. reflexivity.
Qed.

(** C2 (what the code does): when a call raises between the creation of the
    temporary file (line 185) and [os.unlink] (line 218), the [except] branch
    only reports the error; the run ends normally and the temporary file is
    still there. *)
Theorem temp_file_survives_an_error inp w image e :
  Image_save image "PNG" = inl e ∨
  (∃ png, Image_save image "PNG" = inr png ∧ detectAndDecode (imdecode png) = inl e) →
  ∃ w' leftover,
    tab2_col2 inp image w = (inr tt, w') ∧
    fs w' !! tmp_filename inp = Some leftover ∧
    ui w' = ui w ++ [StError ("Error processing image: " +:+ exn_str e)].
Proof.
  intros [Hsave | (png & Hsave & Hdet)].
  - eexists _, Bytes_empty. rewrite (save_error_run inp w image e Hsave).
    split; [reflexivity|]. split; [apply lookup_insert_eq | reflexivity].
  - eexists _, png. rewrite (detect_error_run inp w image png e Hsave Hdet).
    split; [reflexivity|]. split; [apply lookup_insert_eq | reflexivity].
Qed.

(** C4 (what the code does): [Image.open] (line 178) stands before the [try]
    of line 183.  An upload PIL cannot identify ends the second tab, and the
    run of the script, with the exception uncaught: the handler of line 221
    does not see it, no "Error processing image" is rendered and the rest
    of the script (the sidebar) does not run. *)
Theorem unparsable_upload_is_not_caught inp w w1 file e :
  uploaded_file inp = Some file →
  Image_open file = inl e →
  tab1 inp w = (inr tt, w1) →
  tab2 inp w1 = (inl e, after w1 (session_state w1) (fs w1) [tab2_heading]) ∧
  script inp w = (inl e, after w1 (session_state w1) (fs w1) [tab2_heading]) ∧
  (∀ cause, ¬ shows_image_error [tab2_heading] cause).
Proof.
  intros Hup Hopen Htab1.
  assert (Htab2 : tab2 inp w1 = (inl e, after w1 (session_state w1) (fs w1) [tab2_heading])).
  { unfold tab2. rewrite Hup. unfold_script; simpl. rewrite Hopen. reflexivity. }
  split; [exact Htab2|]. split.
  - unfold script. unfold mbind at 1, M_bind at 1. rewrite Htab1.
    unfold mbind at 1, M_bind at 1. rewrite Htab2. reflexivity.
  - intros cause H. unfold shows_image_error in H.
    apply list_elem_of_singleton in H. discriminate H.
Qed.

End DecodeErrors.

(** ** The encode pipeline *)

Section Encode.
Context {L : Libs}.
Implicit Types (inp : Inputs L) (w : World L) (page : list (UIEvent L)).

(** Lines 108-114: each option of the selectbox reaches its constant. *)
Lemma error_dict_of_option (lv : Level) :
  ∃ key, str_first (option_label lv) = inr key ∧
         default qrcode.ERROR_CORRECT_M (error_dict !! key) = level_constant lv.
Proof. destruct lv; eexists; split; reflexivity. Qed.

(** The selectbox holds one of its four options. *)
Lemma option_label_options (choice : string) :
  choice ∈ error_correction_options ↔ ∃ lv, choice = option_label lv.
Proof.
  unfold error_correction_options. rewrite !elem_of_cons, elem_of_nil. split.
  - intros [->|[->|[->|[->|[]]]]];
      [exists level_L | exists level_M | exists level_Q | exists level_H]; reflexivity.
  - intros [[] ->]; simpl; auto.
Qed.

Lemma create_qr_code_run inp w lv :
  error_correction inp = option_label lv →
  create_qr_code inp w = (qr_make (requested_qr inp (level_constant lv)) true, w).
Proof.
  intros Hopt. unfold create_qr_code. rewrite Hopt.
  destruct (error_dict_of_option lv) as (key & Hkey & Hget).
  unfold_script. rewrite Hkey, Hget. reflexivity.
Qed.

(** Whatever the selectbox holds, a symbol comes from [make(fit=True)] on an
    object with version 1, the sliders' sizes and the text. *)
Lemma create_qr_code_inv inp w w' qr :
  create_qr_code inp w = (inr qr, w') →
  w' = w ∧ ∃ ec, qr_make (requested_qr inp ec) true = inr qr.
Proof.
  unfold create_qr_code. unfold_script.
  destruct (str_first (error_correction inp)) as [e|key]; [discriminate|].
  intros [= Hmake <-]. split; [reflexivity|]. eexists. exact Hmake.
Qed.

Lemma create_image_run inp qr w :
  create_image inp qr w =
    (match qr_make_image qr (fill_color inp) (back_color inp) with
     | inl e => inl e
     | inr qr_image =>
         match Image_save qr_image "PNG" with
         | inl e => inl e
         | inr img_byte_arr => inr (qr_image, img_byte_arr)
         end
     end, w).
Proof.
  unfold create_image. unfold_script.
  destruct (qr_make_image _ _ _) as [e|img]; [reflexivity|].
  destruct (Image_save _ _); reflexivity.
Qed.

Lemma generate_button_run inp w qr img png :
  generate_clicked inp = true →
  qr_data inp ≠ "" →
  create_qr_code inp w = (inr qr, w) →
  qr_make_image qr (fill_color inp) (back_color inp) = inr img →
  Image_save img "PNG" = inr png →
  generate_button inp w = (inr tt, mkWorld (stored img png (session_state w)) (fs w) (ui w)).
Proof.
  intros Hclick Hdata Hqr Himg Hsave. unfold generate_button.
  rewrite Hclick. apply truthy_nonempty in Hdata. rewrite Hdata. simpl.
  unfold mbind at 1, M_bind at 1. rewrite Hqr.
  unfold mbind at 1, M_bind at 1. rewrite create_image_run, Himg, Hsave.
  reflexivity.
Qed.

Lemma generate_button_inv inp w w' :
  generate_clicked inp = true →
  qr_data inp ≠ "" →
  generate_button inp w = (inr tt, w') →
  ∃ qr img png,
    create_qr_code inp w = (inr qr, w) ∧
    qr_make_image qr (fill_color inp) (back_color inp) = inr img ∧
    Image_save img "PNG" = inr png ∧
    w' = mkWorld (stored img png (session_state w)) (fs w) (ui w).
Proof.
  intros Hclick Hdata. unfold generate_button.
  rewrite Hclick. apply truthy_nonempty in Hdata. rewrite Hdata. simpl.
  unfold mbind at 1, M_bind at 1.
  destruct (create_qr_code inp w) as [[e|qr] w1] eqn:Hqr; [discriminate|].
  apply create_qr_code_inv in Hqr as Hw1. destruct Hw1 as [-> _].
  unfold mbind at 1, M_bind at 1. rewrite create_image_run.
  destruct (qr_make_image _ _ _) as [e|img] eqn:Himg; [discriminate|].
  destruct (Image_save _ _) as [e|png] eqn:Hsave; [discriminate|].
  intros [= <-]. exists qr, img, png. repeat split; reflexivity || assumption.
Qed.

Lemma generate_button_empty inp w :
  generate_clicked inp = true →
  qr_data inp = "" →
  generate_button inp w =
    (inr tt, after w (session_state w) (fs w)
               [StError "Please enter text or URL to generate QR code."]).
Proof.
  intros Hclick Hdata. unfold generate_button. rewrite Hclick, Hdata. reflexivity.
Qed.

End Encode.

(** ** The generate button *)

Section Generate.
Context {L : Libs}.
Implicit Types (inp : Inputs L) (w : World L) (page : list (UIEvent L)).

(** C5: with an empty content the button only renders "Please enter text or
    URL to generate QR code.": the run ends normally, no call into [qrcode]
    or [PIL] contributes to it, session state and files are untouched. *)
Theorem empty_content_is_a_validation_error inp w :
  generate_clicked inp = true →
  qr_data inp = "" →
  generate_button inp w =
    (inr tt, after w (session_state w) (fs w)
               [StError "Please enter text or URL to generate QR code."]) ∧
  shows_validation_error [StError "Please enter text or URL to generate QR code." : UIEvent L].
Proof.
  intros Hclick Hdata. split; [apply generate_button_empty; assumption|].
  unfold shows_validation_error. apply list_elem_of_singleton. reflexivity.
Qed.

End Generate.

(** ** Session state between runs *)

Section SessionClaims.
Context {L : Libs}.
Implicit Types (inp : Inputs L) (w : World L) (page : list (UIEvent L)).

(** What the results block writes is laid over session state, and only
    under the text area's key. *)
Lemma widget_state_union inp text (ss : gmap string (SSValue L)) :
  widget_state inp text ss = widget_state inp text ∅ ∪ ss.
Proof.
  unfold widget_state. destruct (truthy text).
  - rewrite <- insert_union_l, (left_id_L ∅ (∪)). reflexivity.
  - rewrite (left_id_L ∅ (∪)). reflexivity.
Qed.

Lemma widget_state_other inp text (ss : gmap string (SSValue L)) (key : string) :
  key ≠ "decoded_data" → widget_state inp text ss !! key = ss !! key.
Proof.
  intros Hkey. unfold widget_state. destruct (truthy text); [|reflexivity].
  apply lookup_insert_ne. congruence.
Qed.

(** C9, as amended: how each tab ends and what it renders depend on the
    run's inputs alone, the same on every session state and every set of
    files.  The generate button assigns [qr_image], [qr_bytes] and [show_qr]
    in session state (lines 135-137), over whatever was stored there, with
    values that depend on the inputs alone.  The decode tab writes one
    entry at most, [decoded_data], the value of the text area that shows a
    decoded text (line 204), and reads none. *)
Theorem results_depend_on_the_request_only inp :
  (∃ r page writes, ∀ w,
     generate_button inp w =
       (r, after w (writes ∪ session_state w) (fs w) page)) ∧
  (∃ r page writes,
     (∀ key, key ≠ "decoded_data" → writes !! key = None) ∧
     ∀ w, ∃ files,
       tab2 inp w = (r, after w (writes ∪ session_state w) files page)).
Proof.
  split.
  - unfold generate_button.
    destruct (generate_clicked inp).
    2:{ exists (inr tt), [], ∅. intros w. unfold after.
        rewrite app_nil_r, (left_id_L ∅ (∪)). destruct w; reflexivity. }
    destruct (truthy (qr_data inp)); simpl.
    2:{ exists (inr tt), [StError "Please enter text or URL to generate QR code."], ∅.
        intros w. unfold after. rewrite (left_id_L ∅ (∪)). reflexivity. }
    assert (Hfail : ∀ e : Exn, ∀ w : World L,
              (inl e : Exn + unit, w) = (inl e, after w (∅ ∪ session_state w) (fs w) [])).
    { intros e w. unfold after. rewrite app_nil_r, (left_id_L ∅ (∪)).
      destruct w; reflexivity. }
    unfold create_qr_code. unfold_script.
    destruct (str_first (error_correction inp)) as [e|key].
    { exists (inl e), [], ∅. intros w. apply Hfail. }
    destruct (qr_make _ true) as [e|qr].
    { exists (inl e), [], ∅. intros w. apply Hfail. }
    unfold create_image. unfold_script.
    destruct (qr_make_image _ _ _) as [e|img].
    { exists (inl e), [], ∅. intros w. apply Hfail. }
    destruct (Image_save _ _) as [e|png].
    { exists (inl e), [], ∅. intros w. apply Hfail. }
    exists (inr tt), [], (stored img png ∅). intros w. simpl.
    rewrite app_nil_r. unfold stored.
    rewrite <- !insert_union_l, (left_id_L ∅ (∪)). reflexivity.
  - assert (Hnone : ∀ key : string, key ≠ "decoded_data" →
              (∅ : gmap string (SSValue L)) !! key = None)
      by (intros; apply lookup_empty).
    assert (Hsame : ∀ w files page,
              after w (session_state w) files page =
              after w (∅ ∪ session_state w) files page)
      by (intros; rewrite (left_id_L ∅ (∪)); reflexivity).
    destruct (uploaded_file inp) as [file|] eqn:Hup.
    2:{ exists (inr tt), [tab2_heading], ∅. split; [exact Hnone|]. intros w.
        exists (fs w). rewrite tab2_unfold, Hup. apply (f_equal (pair _)), Hsame. }
    destruct (Image_open file) as [e|image] eqn:Hopen.
    { exists (inl e), [tab2_heading], ∅. split; [exact Hnone|]. intros w. exists (fs w).
      rewrite tab2_unfold, Hup, Hopen. apply (f_equal (pair _)), Hsame. }
    destruct (st_image image) as [e|[]] eqn:Hshow.
    { exists (inl e), [tab2_heading], ∅. split; [exact Hnone|]. intros w. exists (fs w).
      rewrite tab2_unfold, Hup, Hopen, Hshow. apply (f_equal (pair _)), Hsame. }
    assert (Hcol : ∃ page writes,
              (∀ key, key ≠ "decoded_data" → writes !! key = None) ∧
              ∀ w, ∃ files,
                tab2_col2 inp image w = (inr tt, after w (writes ∪ session_state w) files page)).
    { destruct (Image_save image "PNG") as [e|png] eqn:Hsave.
      { eexists _, ∅. split; [exact Hnone|]. intros w. eexists.
        rewrite (save_error_run inp w image e Hsave). apply (f_equal (pair _)), Hsame. }
      destruct (detectAndDecode (imdecode png)) as [e|[text pts]] eqn:Hdet.
      { eexists _, ∅. split; [exact Hnone|]. intros w. eexists.
        rewrite (detect_error_run inp w image png e Hsave Hdet).
        apply (f_equal (pair _)), Hsame. }
      exists (results_page inp text), (widget_state inp text ∅). split.
      { intros key Hkey. rewrite widget_state_other by exact Hkey. apply lookup_empty. }
      intros w. eexists. rewrite <- widget_state_union.
      unfold tab2_col2, process_image. unfold_script; simpl.
      rewrite Hsave; simpl. rewrite lookup_insert_eq; simpl. rewrite Hdet.
      rewrite display_results_run. unfold after; simpl.
      rewrite lookup_insert_eq. reflexivity. }
    destruct Hcol as (page & writes & Hkeys & Hcol).
    exists (inr tt), ([tab2_heading; StImage image "Uploaded Image"] ++ page), writes.
    split; [exact Hkeys|].
    intros w. rewrite tab2_unfold, Hup, Hopen, Hshow.
    destruct (Hcol (after w (session_state w) (fs w)
                          [tab2_heading; StImage image "Uploaded Image"])) as [files Hrun].
    exists files. rewrite Hrun. unfold after; simpl.
    repeat rewrite <- app_assoc. reflexivity.
Qed.

End SessionClaims.

(** ** Concrete runs on the modelled packages *)


Lemma url_flag_is_a_prefix_check_witness :
  ∃ page,
    tab2 (ref_upload (RefLib.ImageFile "PNG" (RefLib.symbol_picture "https://example.com"))
                         "/tmp/tmpq2.png") RefLib.fresh_world
    = (inr tt, after RefLib.fresh_world
                 (<["decoded_data" := VStr (default "https://example.com" None)]> ∅)
                 (delete "/tmp/tmpq2.png" ∅)
                 ([tab2_heading;
                   @StImage RefLib.libs (RefLib.symbol_picture "https://example.com") "Uploaded Image"]
                  ++ page)) ∧
    shows_found page "https://example.com" ∧
    (offers_url page "https://example.com" ↔
       String.prefix "http://" "https://example.com" = true ∨
       String.prefix "https://" "https://example.com" = true ∨
       String.prefix "www." "https://example.com" = true) ∧
    ("https://example.com" = "https://example.com" → offers_url page "https://example.com") ∧
    ("https://example.com" = "hello world" → ¬ offers_url page "https://example.com").
Proof.
  apply (url_flag_is_a_prefix_check
           (ref_upload (RefLib.ImageFile "PNG" (RefLib.symbol_picture "https://example.com"))
                           "/tmp/tmpq2.png")
           RefLib.fresh_world
         (RefLib.ImageFile "PNG" (RefLib.symbol_picture "https://example.com"))
         (RefLib.symbol_picture "https://example.com") "https://example.com" (Some tt)).
  - reflexivity.
  - split; [reflexivity|]. split; [reflexivity|].
    eexists _, _. repeat split; reflexivity.
  - discriminate.
Defined.

Lemma empty_payload_is_reported_as_not_found_witness :
  tab2_col2 (ref_upload (RefLib.ImageFile "PNG" RefLib.empty_symbol_picture) "/tmp/tmpq3.png")
            RefLib.empty_symbol_picture RefLib.fresh_world
  = (inr tt, after RefLib.fresh_world ∅ (delete "/tmp/tmpq3.png" ∅)
               [StError "No QR code detected in the image."]) ∧
  tab2_col2 (ref_upload (RefLib.ImageFile "PNG" RefLib.empty_symbol_picture) "/tmp/tmpq3.png")
            RefLib.empty_symbol_picture RefLib.fresh_world
  = tab2_col2 (ref_upload (RefLib.ImageFile "PNG" RefLib.empty_symbol_picture) "/tmp/tmpq3.png")
              (RefLib.solid_picture "RGB") RefLib.fresh_world.
Proof.
  apply (empty_payload_is_reported_as_not_found
           (ref_upload (RefLib.ImageFile "PNG" RefLib.empty_symbol_picture) "/tmp/tmpq3.png")
           RefLib.fresh_world RefLib.empty_symbol_picture tt (RefLib.solid_picture "RGB")).
  - eexists _, _. repeat split; reflexivity.
  - eexists _, _. repeat split; reflexivity.
Defined.

Lemma temp_file_survives_an_error_witness :
  ∃ w' leftover,
    tab2_col2 (ref_upload (RefLib.ImageFile "JPEG" (RefLib.solid_picture "CMYK")) "/tmp/tmpq4.png")
              (RefLib.solid_picture "CMYK") RefLib.fresh_world = (inr tt, w') ∧
    fs w' !! "/tmp/tmpq4.png" = Some leftover ∧
    ui w' = [StError ("Error processing image: " +:+ "cannot write mode CMYK as PNG")].
Proof.
  apply (temp_file_survives_an_error
           (ref_upload (RefLib.ImageFile "JPEG" (RefLib.solid_picture "CMYK")) "/tmp/tmpq4.png")
           RefLib.fresh_world (RefLib.solid_picture "CMYK")
           (mkExn "OSError" "cannot write mode CMYK as PNG")).
  left. reflexivity.
Defined.

Lemma unparsable_upload_is_not_caught_witness :
  let inp := ref_upload (RefLib.OtherFile "not a picture") "/tmp/tmpq5.png" in
  let w1 := (tab1 inp RefLib.fresh_world).2 in
  let e := mkExn "UnidentifiedImageError" "cannot identify image file" in
  tab2 inp w1 = (inl e, after w1 (session_state w1) (fs w1) [tab2_heading]) ∧
  script inp RefLib.fresh_world = (inl e, after w1 (session_state w1) (fs w1) [tab2_heading]) ∧
  (∀ cause, ¬ shows_image_error [tab2_heading : UIEvent RefLib.libs] cause).
Proof.
  apply (unparsable_upload_is_not_caught
           (ref_upload (RefLib.OtherFile "not a picture") "/tmp/tmpq5.png")
           RefLib.fresh_world
         (tab1 (ref_upload (RefLib.OtherFile "not a picture") "/tmp/tmpq5.png")
               RefLib.fresh_world).2
         (RefLib.OtherFile "not a picture")
           (mkExn "UnidentifiedImageError" "cannot identify image file")).
  - reflexivity.
  - reflexivity.
  - reflexivity.
Defined.

Lemma empty_content_is_a_validation_error_witness :
  generate_button (ref_generate "" level_M 10 4) RefLib.fresh_world =
    (inr tt, after RefLib.fresh_world ∅ ∅
               [StError "Please enter text or URL to generate QR code."]) ∧
  shows_validation_error
    [StError "Please enter text or URL to generate QR code." : UIEvent RefLib.libs].
Proof.
  apply (empty_content_is_a_validation_error (ref_generate "" level_M 10 4) RefLib.fresh_world);
    reflexivity.
Defined.


(** C9, as stated, fails: a run that generates a code leaves [show_qr],
    [qr_image] and [qr_bytes] in session state, the next run renders the
    stored image in its preview, and a later generation replaces it. *)
Lemma session_state_is_shared_between_runs :
  ¬ no_shared_state (L := RefLib.libs) ∧
  let w1 := (run (ref_generate "TEST123" level_M 10 4) RefLib.fresh_world).2 in
  let idle := ref_upload (RefLib.OtherFile "") "" in
  session_state w1 !! "show_qr" = Some (VBool true) ∧
  ui (run idle w1).2 ≠ ui (run idle RefLib.fresh_world).2 ∧
  session_state (run (ref_generate "HELLO" level_M 10 4) w1).2 !! "qr_bytes"
    ≠ session_state w1 !! "qr_bytes".
Proof.
  split.
  - intros Hclaim.
    destruct (Hclaim (ref_generate "TEST123" level_M 10 4) RefLib.fresh_world RefLib.fresh_world)
      as (_ & _ & Hss).
    apply (f_equal (fun m => bool_decide (is_Some (m !! "show_qr")))) in Hss.
    vm_compute in Hss. discriminate Hss.
  - split; [vm_compute; reflexivity|]. split.
    + intros Heq. apply (f_equal length) in Heq.
      vm_compute in Heq. discriminate Heq.
    + intros Heq. apply (f_equal stored_symbol) in Heq.
      vm_compute in Heq. discriminate Heq.
Qed.

(** * Further properties of the script *)

(** ** Python strings: slices and prefixes *)

Lemma str_take_all (n : nat) (s : string) :
  (str_len s <= n)%nat → str_take n s = s.
Proof.
  revert n. induction s as [|c s IH]; intros n Hlen; [reflexivity|].
  simpl in *. destruct (is_continuation c).
  - rewrite IH by exact Hlen. reflexivity.
  - destruct n as [|n]; [lia|]. rewrite IH by lia. reflexivity.
Qed.

Lemma str_take_len (n : nat) (s : string) :
  (n <= str_len s)%nat → str_len (str_take n s) = n.
Proof.
  revert n. induction s as [|c s IH]; intros n Hlen; simpl in *; [lia|].
  destruct (is_continuation c) eqn:Hc; simpl; rewrite ?Hc.
  - apply IH, Hlen.
  - destruct n as [|n]; [reflexivity|]. simpl. rewrite Hc, IH by lia. reflexivity.
Qed.

Lemma str_take_split (n : nat) (s : string) : ∃ rest, s = str_take n s +:+ rest.
Proof.
  revert n. induction s as [|c s IH]; intros n; [exists ""; reflexivity|].
  simpl. destruct (is_continuation c).
  - destruct (IH n) as [rest Hrest]. exists rest.
    change (String c s = String c (str_take n s +:+ rest)). f_equal. exact Hrest.
  - destruct n as [|n]; [exists (String c s); reflexivity|].
    destruct (IH n) as [rest Hrest]. exists rest.
    change (String c s = String c (str_take n s +:+ rest)). f_equal. exact Hrest.
Qed.

Lemma str_len_app (s t : string) : str_len (s +:+ t) = (str_len s + str_len t)%nat.
Proof.
  induction s as [|c s IH]; [reflexivity|].
  change (String c s +:+ t) with (String c (s +:+ t)). simpl.
  rewrite IH. destruct (is_continuation c); reflexivity.
Qed.

Lemma str_app_empty (s : string) : s +:+ "" = s.
Proof.
  induction s as [|c s IH]; [reflexivity|].
  change (String c s +:+ "") with (String c (s +:+ "")). rewrite IH. reflexivity.
Qed.

(** Twenty-six accented letters, two bytes each in UTF-8, are 26
    characters: the "Encoded data" line shows them in full, without dots. *)
Lemma accented_caption_is_not_cut :
  str_len (String.concat "" (replicate 26 (String "195" (String "169" "")))) = 26%nat ∧
  String.length (String.concat "" (replicate 26 (String "195" (String "169" "")))) = 52%nat ∧
  preview_caption (String.concat "" (replicate 26 (String "195" (String "169" "")))) =
    "Encoded data: " +:+ String.concat "" (replicate 26 (String "195" (String "169" ""))).
Proof. repeat split; vm_compute; reflexivity. Qed.

Lemma prefix_empty (s : string) : String.prefix "" s = true.
Proof. destruct s; reflexivity. Qed.

(** A prefix test sees no more of the text than the prefix is long: a
    code point takes one byte at least. *)
Lemma prefix_str_take (p s : string) (n : nat) :
  (String.length p <= n)%nat →
  String.prefix p (str_take n s) = String.prefix p s.
Proof.
  revert p n. induction s as [|c s IH]; intros p n Hlen; [reflexivity|].
  destruct p as [|a p]; [rewrite !prefix_empty; reflexivity|].
  simpl in Hlen. simpl. destruct (is_continuation c).
  - simpl. destruct (ascii_dec a c); [apply IH; lia | reflexivity].
  - destruct n as [|n]; [lia|].
    simpl. destruct (ascii_dec a c); [apply IH; lia | reflexivity].
Qed.

Lemma prefix_app (p s t : string) :
  String.prefix p s = true → String.prefix p (s +:+ t) = true.
Proof.
  revert s. induction p as [|a p IH]; intros s; [intros _; apply prefix_empty|].
  destruct s as [|c s]; [discriminate|].
  change (String c s +:+ t) with (String c (s +:+ t)). simpl.
  destruct (ascii_dec a c); [apply IH | discriminate].
Qed.

(** ** What each part of the script does to the world *)

Section ScriptEffects.
Context {L : Libs}.
Implicit Types (inp : Inputs L) (w : World L) (page : list (UIEvent L)).

(** The [try] body when writing and detecting answer, whatever [imread]
    returned. *)
Lemma process_image_answer inp w image png text pts :
  Image_save image "PNG" = inr png →
  detectAndDecode (imdecode png) = inr (text, pts) →
  process_image inp image w =
    (inr tt, after w (widget_state inp text (session_state w))
               (delete (tmp_filename inp) (fs w)) (results_page inp text)).
Proof.
  intros Hsave Hdet. unfold process_image.
  unfold_script; simpl. rewrite Hsave; simpl.
  rewrite lookup_insert_eq; simpl. rewrite Hdet.
  rewrite display_results_run. unfold after; simpl.
  rewrite lookup_insert_eq, delete_written. reflexivity.
Qed.

(** The right column of the decode tab: a results page and no temporary
    file, or the error banner and the temporary file. *)
Lemma tab2_col2_cases inp image w :
  (∃ text,
     tab2_col2 inp image w =
       (inr tt, after w (widget_state inp text (session_state w))
                  (delete (tmp_filename inp) (fs w)) (results_page inp text))) ∨
  (∃ leftover e,
     tab2_col2 inp image w =
       (inr tt, after w (session_state w) (<[tmp_filename inp := leftover]> (fs w))
                  [StError ("Error processing image: " +:+ exn_str e)])).
Proof.
  destruct (Image_save image "PNG") as [e|png] eqn:Hsave.
  { right. exists Bytes_empty, e. apply (save_error_run inp w image e Hsave). }
  destruct (detectAndDecode (imdecode png)) as [e|[text pts]] eqn:Hdet.
  { right. exists png, e. apply (detect_error_run inp w image png e Hsave Hdet). }
  left. exists text. unfold tab2_col2, try_except.
  rewrite (process_image_answer inp w image png text pts Hsave Hdet). reflexivity.
Qed.

Lemma results_page_no_image_error inp text cause :
  ¬ shows_image_error (results_page inp text) cause.
Proof.
  unfold shows_image_error, results_page, found_page.
  destruct (truthy text), (copy_clicked inp), (startswith_any text url_prefixes); simpl;
    rewrite ?elem_of_cons, ?elem_of_nil; intuition discriminate.
Qed.

(** The generate button: not pressed, rejected, failed or stored. *)
Lemma generate_button_cases inp w :
  (generate_clicked inp = false ∧ generate_button inp w = (inr tt, w)) ∨
  (generate_clicked inp = true ∧ qr_data inp = "" ∧
   generate_button inp w =
     (inr tt, after w (session_state w) (fs w)
                [StError "Please enter text or URL to generate QR code."])) ∨
  (generate_clicked inp = true ∧ qr_data inp ≠ "" ∧
   ∃ e, generate_button inp w = (inl e, w)) ∨
  (generate_clicked inp = true ∧ qr_data inp ≠ "" ∧
   ∃ qr img png,
     create_qr_code inp w = (inr qr, w) ∧
     qr_make_image qr (fill_color inp) (back_color inp) = inr img ∧
     Image_save img "PNG" = inr png ∧
     generate_button inp w =
       (inr tt, mkWorld (stored img png (session_state w)) (fs w) (ui w))).
Proof.
  destruct (generate_clicked inp) eqn:Hclick.
  2:{ left. split; [reflexivity|]. unfold generate_button. rewrite Hclick. reflexivity. }
  right. destruct (decide (qr_data inp = "")) as [Hdata|Hdata].
  { left. split; [reflexivity|]. split; [exact Hdata|].
    apply generate_button_empty; assumption. }
  right.
  destruct (create_qr_code inp w) as [[e|qr] w1] eqn:Hqr.
  { left. split; [reflexivity|]. split; [exact Hdata|]. exists e.
    unfold generate_button. rewrite Hclick.
    apply truthy_nonempty in Hdata. rewrite Hdata. simpl.
    unfold mbind, M_bind. rewrite Hqr.
    revert Hqr. unfold create_qr_code. unfold_script.
    destruct (str_first (error_correction inp)); intros [= _ <-]; reflexivity. }
  destruct (create_qr_code_inv _ _ _ _ Hqr) as [-> _].
  destruct (qr_make_image qr (fill_color inp) (back_color inp)) as [e|img] eqn:Himg.
  { left. split; [reflexivity|]. split; [exact Hdata|]. exists e.
    unfold generate_button. rewrite Hclick.
    apply truthy_nonempty in Hdata. rewrite Hdata. simpl.
    unfold mbind at 1, M_bind at 1. rewrite Hqr.
    unfold mbind at 1, M_bind at 1. rewrite create_image_run, Himg. reflexivity. }
  destruct (Image_save img "PNG") as [e|png] eqn:Hsave.
  { left. split; [reflexivity|]. split; [exact Hdata|]. exists e.
    unfold generate_button. rewrite Hclick.
    apply truthy_nonempty in Hdata. rewrite Hdata. simpl.
    unfold mbind at 1, M_bind at 1. rewrite Hqr.
    unfold mbind at 1, M_bind at 1. rewrite create_image_run, Himg, Hsave. reflexivity. }
  right. split; [reflexivity|]. split; [exact Hdata|]. exists qr, img, png.
  repeat (split; [first [assumption | reflexivity]|]).
  apply (generate_button_run inp w qr img png); assumption.
Qed.

Lemma stored_holds_preview img png (ss : gmap string (SSValue L)) :
  Image_save img "PNG" = inr png → holds_preview (stored img png ss) img png.
Proof.
  intros Hsave. unfold holds_preview, stored.
  split; [apply lookup_insert_eq|].
  split; [rewrite !lookup_insert_ne by discriminate; apply lookup_insert_eq|].
  split; [rewrite lookup_insert_ne by discriminate; apply lookup_insert_eq|].
  exact Hsave.
Qed.

(** The preview column with a generated code in session state. *)
Lemma tab1_col2_stored inp w img png :
  holds_preview (session_state w) img png →
  tab1_col2 inp w = (inr tt, after w (session_state w) (fs w) (preview_page inp png)).
Proof.
  intros (Hshow & _ & Hbytes & _). unfold tab1_col2. unfold_script; simpl.
  rewrite Hshow; simpl. rewrite Hshow; simpl. rewrite Hbytes; simpl.
  unfold preview_page, preview_caption. repeat rewrite <- app_assoc. reflexivity.
Qed.

(** The preview column before anything was generated. *)
Lemma tab1_col2_fresh inp w :
  session_state w !! "show_qr" = None →
  tab1_col2 inp w = (inr tt, after w (session_state w) (fs w) placeholder_page).
Proof.
  intros Hshow. unfold tab1_col2. unfold_script; simpl.
  rewrite Hshow; simpl.
  unfold placeholder_page. repeat rewrite <- app_assoc. reflexivity.
Qed.

(** The preview column reads session state and changes nothing but the
    page, also when it raises. *)
Lemma tab1_col2_world inp w :
  ∃ r page, tab1_col2 inp w = (r, after w (session_state w) (fs w) page).
Proof.
  unfold tab1_col2. unfold_script; simpl.
  destruct (session_state w !! "show_qr") as [v|] eqn:Hshow; simpl;
    rewrite ?Hshow; simpl.
  2:{ repeat rewrite <- app_assoc. simpl. eexists _, _. reflexivity. }
  destruct (truthy_value v); simpl.
  2:{ repeat rewrite <- app_assoc. simpl. eexists _, _. reflexivity. }
  destruct (session_state w !! "qr_bytes") as [[img|b|b|s]|]; simpl;
    repeat rewrite <- app_assoc; simpl; eexists _, _; reflexivity.
Qed.

Lemma tab1_unfold inp w :
  tab1 inp w =
    match generate_button inp
            (after w (session_state w) (fs w) [tab1_heading; StSubheader "QR Code Options"]) with
    | (inl e, w1) => (inl e, w1)
    | (inr _, w1) => tab1_col2 inp w1
    end.
Proof.
  unfold tab1, tab1_col1, after, tab1_heading. unfold mbind, M_bind, render; simpl.
  rewrite <- app_assoc. simpl.
  destruct (generate_button inp _) as [[e|[]] w1]; reflexivity.
Qed.

Lemma script_unfold inp w :
  script inp w =
    match tab1 inp w with
    | (inl e, w1) => (inl e, w1)
    | (inr _, w1) =>
        match tab2 inp w1 with
        | (inl e, w2) => (inl e, w2)
        | (inr _, w2) => sidebar w2
        end
    end.
Proof.
  unfold script. unfold mbind, M_bind.
  destruct (tab1 inp w) as [[e|[]] w1]; [reflexivity|].
  destruct (tab2 inp w1) as [[e|[]] w2]; reflexivity.
Qed.

Lemma sidebar_world w :
  ∃ page, sidebar w = (inr tt, after w (session_state w) (fs w) page).
Proof.
  unfold sidebar. unfold_script; simpl.
  repeat rewrite <- app_assoc. simpl. eexists. reflexivity.
Qed.

End ScriptEffects.

(** ** Errors in the decode tab *)

Section DecodeTabExtras.
Context {L : Libs}.
Implicit Types (inp : Inputs L) (w : World L) (page : list (UIEvent L)).

(** X1: once the upload was opened and displayed, the right column of the
    decode tab always ends normally: whatever is raised inside the [try]
    (lines 183-218) is caught by line 220 and rendered as "Error processing
    image: ...", and [os.unlink] itself never raises there.  Session state
    is as it was but for the entry [decoded_data] of the text area, written
    when a decoded text is shown. *)
Theorem decode_column_never_raises inp image w :
  ∃ files page,
    (∃ text,
       page = results_page inp text ∧
       tab2_col2 inp image w =
         (inr tt, after w (widget_state inp text (session_state w)) files page)) ∨
    (∃ e,
       page = [StError ("Error processing image: " +:+ exn_str e)] ∧
       tab2_col2 inp image w = (inr tt, after w (session_state w) files page)).
Proof.
  destruct (tab2_col2_cases inp image w) as [[text Hrun] | (leftover & e & Hrun)].
  - eexists _, _. left. exists text. split; [reflexivity | exact Hrun].
  - eexists _, _. right. exists e. split; [reflexivity | exact Hrun].
Qed.

(** X2: the decode tab ends with an exception only through the two calls
    that stand before the [try]: [Image.open] (line 178) and [st.image]
    (line 179), which loads the pixel data.  Then there is an upload, one
    of the two raised this very exception, and nothing but the tab's
    heading was rendered; no temporary file was created and session state
    is as it was. *)
Theorem decode_tab_raises_only_before_the_try inp w e w' :
  tab2 inp w = (inl e, w') →
  ∃ file,
    uploaded_file inp = Some file ∧
    (Image_open file = inl e ∨
     ∃ image, Image_open file = inr image ∧ st_image image = inl e) ∧
    w' = after w (session_state w) (fs w) [tab2_heading].
Proof.
  rewrite tab2_unfold.
  destruct (uploaded_file inp) as [file|]; [|discriminate].
  destruct (Image_open file) as [e'|image] eqn:Hopen.
  { intros [= <- <-]. exists file. split; [reflexivity|]. split; [left; exact Hopen | reflexivity]. }
  destruct (st_image image) as [e'|[]] eqn:Hshow.
  { intros [= <- <-]. exists file. split; [reflexivity|].
    split; [right; exists image; split; [exact Hopen | exact Hshow] | reflexivity]. }
  destruct (tab2_col2_cases inp image
              (after w (session_state w) (fs w) [tab2_heading; StImage image "Uploaded Image"]))
    as [[text Hrun] | (leftover & e' & Hrun)]; rewrite Hrun; discriminate.
Qed.


End DecodeTabExtras.

(** ** Errors, session state and the preview in the generate tab *)

Section GenerateTabExtras.
Context {L : Libs}.
Implicit Types (inp : Inputs L) (w : World L) (page : list (UIEvent L)).

(** Whether the button raises does not depend on the world. *)
Lemma generate_button_raises inp w w' e :
  generate_button inp w = (inl e, w') →
  ∀ w2, generate_button inp w2 = (inl e, w2).
Proof.
  intros Hrun w2. revert Hrun. unfold generate_button.
  destruct (generate_clicked inp); [|discriminate].
  destruct (truthy (qr_data inp)); simpl; [|discriminate].
  unfold create_qr_code, create_image. unfold_script.
  destruct (str_first (error_correction inp)) as [e1|key]; [intros [= <- _]; reflexivity|].
  destruct (qr_make _ true) as [e1|qr]; [intros [= <- _]; reflexivity|].
  destruct (qr_make_image _ _ _) as [e1|img]; [intros [= <- _]; reflexivity|].
  destruct (Image_save _ _) as [e1|png]; [intros [= <- _]; reflexivity|].
  discriminate.
Qed.

(** What a successful press stores does not depend on the world either. *)
Lemma generate_button_stores inp w w1 :
  generate_clicked inp = true →
  qr_data inp ≠ "" →
  generate_button inp w = (inr tt, w1) →
  ∃ img png,
    Image_save img "PNG" = inr png ∧
    ∀ w2, generate_button inp w2 =
            (inr tt, mkWorld (stored img png (session_state w2)) (fs w2) (ui w2)).
Proof.
  intros Hclick Hdata. unfold generate_button. rewrite Hclick.
  apply truthy_nonempty in Hdata. rewrite Hdata. simpl.
  unfold create_qr_code, create_image. unfold_script.
  destruct (str_first (error_correction inp)) as [e1|key]; [discriminate|].
  destruct (qr_make _ true) as [e1|qr]; [discriminate|].
  destruct (qr_make_image _ _ _) as [e1|img]; [discriminate|].
  destruct (Image_save img "PNG") as [e1|png] eqn:Hsave; [discriminate|].
  intros _. exists img, png. split; [exact Hsave|]. intros w2. reflexivity.
Qed.

(** X4: the encode pipeline has no [try] (lines 107-137).  When one of its
    calls raises, the exception ends the whole run of the script: nothing was
    stored in session state, no file was touched, and neither the preview
    nor the decode tab nor the sidebar is rendered. *)
Theorem encode_error_ends_the_run inp w w' e :
  generate_button inp w = (inl e, w') →
  w' = w ∧
  script inp w =
    (inl e, after w (session_state w) (fs w) [tab1_heading; StSubheader "QR Code Options"]).
Proof.
  intros Hrun. split.
  - rewrite (generate_button_raises inp w w' e Hrun w) in Hrun. congruence.
  - rewrite script_unfold, tab1_unfold.
    rewrite (generate_button_raises inp w w' e Hrun). reflexivity.
Qed.

Lemma generate_button_consistent inp w r w' :
  session_consistent (session_state w) →
  generate_button inp w = (r, w') →
  session_consistent (session_state w') ∧ fs w' = fs w.
Proof.
  intros Hcons Hrun.
  destruct (generate_button_cases inp w)
    as [[_ H] | [(_ & _ & H) | [(_ & _ & e & H) | (_ & _ & qr & img & png & _ & _ & Hsave & H)]]];
    rewrite H in Hrun; injection Hrun as <- <-; simpl; try (split; [exact Hcons | reflexivity]).
  split; [|reflexivity]. right. exists img, png. apply stored_holds_preview, Hsave.
Qed.

Lemma tab1_col2_consistent inp w :
  session_consistent (session_state w) →
  ∃ page, tab1_col2 inp w = (inr tt, after w (session_state w) (fs w) page).
Proof.
  intros [Hfresh | (img & png & Hheld)].
  - eexists. apply tab1_col2_fresh, Hfresh.
  - eexists. apply (tab1_col2_stored inp w img png Hheld).
Qed.

(** The decode tab writes session state under [decoded_data] only. *)
Lemma tab2_session inp w r w' (key : string) :
  tab2 inp w = (r, w') → key ≠ "decoded_data" →
  session_state w' !! key = session_state w !! key.
Proof.
  intros Hrun Hkey. revert Hrun. rewrite tab2_unfold.
  destruct (uploaded_file inp) as [file|]; [|intros [= _ <-]; reflexivity].
  destruct (Image_open file) as [e|image]; [intros [= _ <-]; reflexivity|].
  destruct (st_image image) as [e|[]]; [intros [= _ <-]; reflexivity|].
  destruct (tab2_col2_cases inp image
              (after w (session_state w) (fs w) [tab2_heading; StImage image "Uploaded Image"]))
    as [[text Hrun] | (leftover & e & Hrun)]; rewrite Hrun; intros [= _ <-]; [|reflexivity].
  simpl. apply widget_state_other, Hkey.
Qed.

(** Consistency looks at the three keys of the generate tab only. *)
Lemma session_consistent_other (ss ss' : gmap string (SSValue L)) :
  (∀ key : string, key ≠ "decoded_data" → ss' !! key = ss !! key) →
  session_consistent ss → session_consistent ss'.
Proof.
  intros Hsame [Hfresh | (img & png & Hshow & Himg & Hbytes & Hsave)].
  - left. rewrite Hsame by discriminate. exact Hfresh.
  - right. exists img, png. unfold holds_preview.
    rewrite !Hsame by discriminate. repeat split; assumption.
Qed.

Lemma script_consistent inp w r w' :
  session_consistent (session_state w) →
  script inp w = (r, w') →
  session_consistent (session_state w').
Proof.
  intros Hcons. rewrite script_unfold, tab1_unfold.
  set (w0 := after w (session_state w) (fs w) [tab1_heading; StSubheader "QR Code Options"]).
  destruct (generate_button inp w0) as [rb w1] eqn:Hbutton.
  destruct (generate_button_consistent inp w0 rb w1 Hcons Hbutton) as [Hcons1 _].
  destruct rb as [e|[]]; [intros [= _ <-]; exact Hcons1|].
  destruct (tab1_col2_consistent inp w1 Hcons1) as [page Hcol2]. rewrite Hcol2.
  destruct (tab2 inp _) as [r2 w2] eqn:Htab2.
  assert (Hcons2 : session_consistent (session_state w2)).
  { apply (session_consistent_other (session_state w1)); [|exact Hcons1].
    intros key Hkey. apply (tab2_session _ _ _ _ key Htab2 Hkey). }
  destruct r2 as [e|[]].
  - intros [= _ <-]. exact Hcons2.
  - destruct (sidebar_world w2) as [page' Hside]. rewrite Hside.
    intros [= _ <-]. exact Hcons2.
Qed.

Lemma runs_consistent (inps : list (Inputs L)) w :
  session_consistent (session_state w) →
  session_consistent (session_state (runs inps w)).
Proof.
  revert w. induction inps as [|inp inps IH]; intros w Hcons; [exact Hcons|].
  simpl. apply IH. unfold run.
  destruct (script inp _) as [r w'] eqn:Hrun.
  apply (script_consistent inp (mkWorld (session_state w) (fs w) []) r w' Hcons Hrun).
Qed.

(** X5: session state stays consistent over any sequence of runs that
    starts on an empty session: [show_qr] is only ever set together with
    [qr_image] and [qr_bytes], the bytes being the PNG of the image (lines
    135-137).  So the preview column (lines 143-159), which reads
    [show_qr] and then [qr_bytes], never raises. *)
Theorem preview_never_raises (inps : list (Inputs L)) (files : gmap string Bytes) inp :
  let w := runs inps (mkWorld ∅ files []) in
  session_consistent (session_state w) ∧
  ∃ page, tab1_col2 inp w = (inr tt, after w (session_state w) (fs w) page).
Proof.
  intros w.
  assert (Hcons : session_consistent (session_state w)).
  { apply runs_consistent. left. apply lookup_empty. }
  split; [exact Hcons|]. apply tab1_col2_consistent, Hcons.
Qed.

(** X6: after a successful generation the first tab shows, in the same run,
    the PNG it has just stored: the preview image and the download button
    carry these bytes, the file is offered as [qrcode_<timestamp>.png] with
    MIME type [image/png], whatever was stored before. *)
Theorem generated_code_is_previewed inp w w1 :
  generate_clicked inp = true →
  qr_data inp ≠ "" →
  generate_button inp w = (inr tt, w1) →
  ∃ png w',
    session_state w1 !! "qr_bytes" = Some (VBytes png) ∧
    tab1 inp w = (inr tt, w') ∧
    session_state w' = session_state w1 ∧
    ui w' = ui w ++ [tab1_heading; StSubheader "QR Code Options";
                     StSubheader "QR Code Preview";
                     StImageBytes png "Generated QR Code";
                     StDownloadButton "Download QR Code" png
                       ("qrcode_" +:+ timestamp inp +:+ ".png") "image/png";
                     StInfo (preview_caption (qr_data inp))].
Proof.
  intros Hclick Hdata Hrun.
  destruct (generate_button_stores inp w w1 Hclick Hdata Hrun) as (img & png & Hsave & Hany).
  rewrite Hany in Hrun. injection Hrun as <-.
  set (w0 := after w (session_state w) (fs w) [tab1_heading; StSubheader "QR Code Options"]).
  pose proof (stored_holds_preview img png (session_state w) Hsave) as Hheld.
  exists png. eexists. split; [apply Hheld|]. split.
  { rewrite tab1_unfold. fold w0. rewrite (Hany w0).
    apply (tab1_col2_stored inp _ img png). exact Hheld. }
  split; [reflexivity|].
  simpl. rewrite <- app_assoc. reflexivity.
Qed.

(** X7: a run that generates nothing (the button was not pressed, or the
    content was empty) keeps showing the code generated earlier: the stored
    PNG is displayed and offered for download, session state is unchanged,
    and the "Encoded data" line shows the text now in the input box, not
    the text the stored code was made from. *)
Theorem idle_run_shows_the_stored_code inp w img png :
  holds_preview (session_state w) img png →
  generate_clicked inp = false ∨ qr_data inp = "" →
  ∃ w' notice,
    tab1 inp w = (inr tt, w') ∧
    session_state w' = session_state w ∧ fs w' = fs w ∧
    ui w' = ui w ++ [tab1_heading; StSubheader "QR Code Options"] ++ notice ++
            preview_page inp png ∧
    (notice = [] ∨ notice = [StError "Please enter text or URL to generate QR code."]).
Proof.
  intros Hheld Hidle. rewrite tab1_unfold.
  set (w0 := after w (session_state w) (fs w) [tab1_heading; StSubheader "QR Code Options"]).
  destruct (generate_button_cases inp w0)
    as [[Hc H] | [(Hc & Hd & H) | [(Hc & Hd & _) | (Hc & Hd & _)]]];
    [| | destruct Hidle; congruence | destruct Hidle; congruence]; rewrite H; cbv beta iota.
  - rewrite (tab1_col2_stored inp w0 img png Hheld).
    eexists _, []. split; [reflexivity|]. repeat (split; [reflexivity|]).
    split; [|left; reflexivity]. simpl. rewrite <- app_assoc. reflexivity.
  - rewrite (tab1_col2_stored inp
               (after w0 (session_state w0) (fs w0)
                  [StError "Please enter text or URL to generate QR code."])
               img png Hheld).
    eexists _, [_]. split; [reflexivity|]. repeat (split; [reflexivity|]).
    split; [|right; reflexivity]. simpl. repeat rewrite <- app_assoc. reflexivity.
Qed.

(** X8: the "Encoded data" line of the preview (line 159) shows a content
    of up to 50 characters in full and without dots; of a longer one it
    shows the first 50 characters followed by three dots, 67 characters in
    all.  Characters are code points, so a content of 26 accented letters
    (52 bytes) is shown in full. *)
Theorem preview_caption_is_cut_at_50 inp w img png :
  holds_preview (session_state w) img png →
  ∃ w' caption,
    tab1_col2 inp w = (inr tt, w') ∧
    ui w' = ui w ++ [StSubheader "QR Code Preview";
                     StImageBytes png "Generated QR Code";
                     StDownloadButton "Download QR Code" png
                       ("qrcode_" +:+ timestamp inp +:+ ".png") "image/png";
                     StInfo caption] ∧
    ((str_len (qr_data inp) <= 50)%nat →
       caption = "Encoded data: " +:+ qr_data inp) ∧
    ((50 < str_len (qr_data inp))%nat →
       caption = "Encoded data: " +:+ str_take 50 (qr_data inp) +:+ "..." ∧
       str_len caption = 67%nat ∧
       ∃ rest, rest ≠ "" ∧ qr_data inp = str_take 50 (qr_data inp) +:+ rest).
Proof.
  intros Hheld. rewrite (tab1_col2_stored inp w img png Hheld).
  eexists _, _. split; [reflexivity|]. split; [reflexivity|].
  unfold preview_caption. split.
  - intros Hlen. rewrite str_take_all by exact Hlen.
    replace (50 <? str_len (qr_data inp))%nat with false
      by (symmetry; apply Nat.ltb_ge; exact Hlen).
    rewrite str_app_empty. reflexivity.
  - intros Hlen.
    replace (50 <? str_len (qr_data inp))%nat with true
      by (symmetry; apply Nat.ltb_lt; exact Hlen).
    split; [reflexivity|]. split.
    + rewrite !str_len_app, str_take_len by lia. reflexivity.
    + destruct (str_take_split 50 (qr_data inp)) as [rest Hrest].
      exists rest. split; [|exact Hrest].
      intros ->. apply (f_equal str_len) in Hrest.
      rewrite str_len_app, str_take_len in Hrest by lia. simpl in Hrest. lia.
Qed.

End GenerateTabExtras.

(** ** The URL check and the frame of a run *)

Section MoreExtras.
Context {L : Libs}.
Implicit Types (inp : Inputs L) (w : World L) (page : list (UIEvent L)).

Lemma startswith_any_take8 (s : string) :
  startswith_any (str_take 8 s) url_prefixes = startswith_any s url_prefixes.
Proof.
  unfold startswith_any, url_prefixes, startswith; simpl.
  rewrite !prefix_str_take by (simpl; lia). reflexivity.
Qed.

(** X10: whether a decoded text is offered as a link (line 212) is decided
    by its first eight characters: two texts that agree on them are both
    offered or both not, and a text that is offered stays offered whatever
    is appended to it. *)
Theorem url_flag_reads_eight_characters inp (s t : string) :
  str_take 8 s = str_take 8 t →
  (offers_url (found_page inp s) s ↔ offers_url (found_page inp t) t) ∧
  (∀ suffix, offers_url (found_page inp s) s →
             offers_url (found_page inp (s +:+ suffix)) (s +:+ suffix)).
Proof.
  intros Hsame. rewrite !found_page_offers_url. split.
  - rewrite <- (startswith_any_take8 s), <- (startswith_any_take8 t), Hsame. reflexivity.
  - intros suffix. rewrite !found_page_offers_url.
    unfold startswith_any, url_prefixes, startswith.
    cbn [existsb]. rewrite !orb_true_iff.
    intros [H|[H|[H|H]]]; [| | |discriminate];
      apply (prefix_app _ _ suffix) in H; auto.
Qed.

Lemma within_frame_same inp w w' :
  session_state w' = session_state w → fs w' = fs w → within_frame inp w w'.
Proof. intros Hss Hfs. split; intros; rewrite ?Hss, ?Hfs; reflexivity. Qed.

Lemma within_frame_trans inp w1 w2 w3 :
  within_frame inp w1 w2 → within_frame inp w2 w3 → within_frame inp w1 w3.
Proof.
  intros [Hf1 Hs1] [Hf2 Hs2]. split.
  - intros path Hpath. rewrite Hf2, Hf1 by exact Hpath. reflexivity.
  - intros key Hkey. rewrite Hs2, Hs1 by exact Hkey. reflexivity.
Qed.

Lemma generate_button_frame inp w r w' :
  generate_button inp w = (r, w') → within_frame inp w w'.
Proof.
  intros Hrun.
  destruct (generate_button_cases inp w)
    as [[_ H] | [(_ & _ & H) | [(_ & _ & e & H) | (_ & _ & qr & img & png & _ & _ & _ & H)]]];
    rewrite H in Hrun; injection Hrun as <- <-;
    try (apply within_frame_same; reflexivity).
  split; [reflexivity|]. intros key Hkey. simpl. unfold stored.
  unfold session_keys in Hkey. rewrite !not_elem_of_cons in Hkey.
  destruct Hkey as (H1 & H2 & H3 & _).
  rewrite !lookup_insert_ne by congruence. reflexivity.
Qed.

Lemma tab2_frame inp w r w' :
  tab2 inp w = (r, w') → within_frame inp w w'.
Proof.
  intros Hrun. split.
  - revert Hrun. rewrite tab2_unfold.
    destruct (uploaded_file inp) as [file|]; [|intros [= _ <-]; reflexivity].
    destruct (Image_open file) as [e|image]; [intros [= _ <-]; reflexivity|].
    destruct (st_image image) as [e|[]]; [intros [= _ <-]; reflexivity|].
    destruct (tab2_col2_cases inp image
                (after w (session_state w) (fs w) [tab2_heading; StImage image "Uploaded Image"]))
      as [[text Hcol] | (leftover & e & Hcol)]; rewrite Hcol; intros [= _ <-];
      intros path Hpath; simpl.
    + apply lookup_delete_ne. congruence.
    + apply lookup_insert_ne. congruence.
  - intros key Hkey. apply (tab2_session inp w r w' key Hrun).
    intros ->. apply Hkey. unfold session_keys. set_solver.
Qed.

Lemma script_frame inp w r w' :
  script inp w = (r, w') → within_frame inp w w'.
Proof.
  rewrite script_unfold, tab1_unfold.
  set (w0 := after w (session_state w) (fs w) [tab1_heading; StSubheader "QR Code Options"]).
  assert (H0 : within_frame inp w w0) by (apply within_frame_same; reflexivity).
  destruct (generate_button inp w0) as [rb w1] eqn:Hbutton.
  pose proof (within_frame_trans _ _ _ _ H0 (generate_button_frame _ _ _ _ Hbutton)) as H1.
  destruct rb as [e|[]]; [intros [= _ <-]; exact H1|].
  destruct (tab1_col2_world inp w1) as (r2 & page & Hcol2). rewrite Hcol2.
  set (w2 := after w1 (session_state w1) (fs w1) page).
  assert (H2 : within_frame inp w w2)
    by (apply (within_frame_trans _ _ _ _ H1); apply within_frame_same; reflexivity).
  destruct r2 as [e|[]]; [intros [= _ <-]; exact H2|].
  destruct (tab2 inp w2) as [r3 w3] eqn:Htab2.
  pose proof (within_frame_trans _ _ _ _ H2 (tab2_frame _ _ _ _ Htab2)) as H3.
  destruct r3 as [e|[]]; [intros [= _ <-]; exact H3|].
  destruct (sidebar_world w3) as [page' Hside]. rewrite Hside.
  intros [= _ <-]. apply (within_frame_trans _ _ _ _ H3).
  apply within_frame_same; reflexivity.
Qed.

(** X11: a run of the script, however it ends, changes no file other than
    the temporary file of the decode tab, and no entry of session state
    other than [qr_image], [qr_bytes] and [show_qr], which the generate
    button assigns, and [decoded_data], which the text area of the decode
    tab keeps. *)
Theorem run_touches_only_its_own_state inp w :
  (∀ path, path ≠ tmp_filename inp → fs (run inp w).2 !! path = fs w !! path) ∧
  (∀ key, key ∉ session_keys →
          session_state (run inp w).2 !! key = session_state w !! key).
Proof.
  unfold run. destruct (script inp _) as [r w'] eqn:Hrun.
  apply script_frame in Hrun. exact Hrun.
Qed.

End MoreExtras.

(** ** Concrete runs for the further properties *)

Lemma decode_tab_raises_only_before_the_try_witness :
  ∃ file,
    uploaded_file (ref_upload (RefLib.OtherFile "not a picture") "/tmp/tmpx2.png") = Some file ∧
    (Image_open file = inl (mkExn "UnidentifiedImageError" "cannot identify image file") ∨
     ∃ image, Image_open file = inr image ∧
              st_image image = inl (mkExn "UnidentifiedImageError" "cannot identify image file")) ∧
    after RefLib.fresh_world ∅ ∅ [tab2_heading] =
    after RefLib.fresh_world (session_state RefLib.fresh_world) (fs RefLib.fresh_world)
          [tab2_heading].
Proof.
  apply (decode_tab_raises_only_before_the_try
           (ref_upload (RefLib.OtherFile "not a picture") "/tmp/tmpx2.png")
           RefLib.fresh_world
           (mkExn "UnidentifiedImageError" "cannot identify image file")
           (after RefLib.fresh_world ∅ ∅ [tab2_heading])).
  reflexivity.
Defined.


Lemma encode_error_ends_the_run_witness :
  RefLib.fresh_world = RefLib.fresh_world ∧
  script (ref_generate long_content level_H 10 4) RefLib.fresh_world =
    (inl (mkExn "DataOverflowError" ""),
     after RefLib.fresh_world ∅ ∅ [tab1_heading; StSubheader "QR Code Options"]).
Proof.
  apply (encode_error_ends_the_run (ref_generate long_content level_H 10 4)
           RefLib.fresh_world RefLib.fresh_world (mkExn "DataOverflowError" "")).
  vm_compute. reflexivity.
Defined.

Lemma generated_code_is_previewed_witness :
  ∃ png w',
    session_state (generate_button (ref_generate "TEST123" level_M 10 4) RefLib.fresh_world).2
      !! "qr_bytes" = Some (VBytes png) ∧
    tab1 (ref_generate "TEST123" level_M 10 4) RefLib.fresh_world = (inr tt, w') ∧
    session_state w' =
      session_state (generate_button (ref_generate "TEST123" level_M 10 4) RefLib.fresh_world).2 ∧
    ui w' = [] ++ [tab1_heading; StSubheader "QR Code Options";
                   StSubheader "QR Code Preview";
                   StImageBytes png "Generated QR Code";
                   StDownloadButton "Download QR Code" png ("qrcode_" +:+ "" +:+ ".png") "image/png";
                   StInfo (preview_caption "TEST123")].
Proof.
  apply (generated_code_is_previewed (ref_generate "TEST123" level_M 10 4) RefLib.fresh_world
           (generate_button (ref_generate "TEST123" level_M 10 4) RefLib.fresh_world).2).
  - reflexivity.
  - discriminate.
  - erewrite generate_button_run; [reflexivity | reflexivity | discriminate | reflexivity ..].
Defined.

Lemma test123_world_holds_preview :
  holds_preview (session_state test123_world) test123_picture
                (RefLib.ImageFile "PNG" test123_picture).
Proof. apply (stored_holds_preview (L := RefLib.libs)). reflexivity. Qed.

Lemma idle_run_shows_the_stored_code_witness :
  ∃ w' notice,
    tab1 (ref_generate "" level_M 10 4) test123_world = (inr tt, w') ∧
    session_state w' = session_state test123_world ∧ fs w' = fs test123_world ∧
    ui w' = ui test123_world ++ [tab1_heading; StSubheader "QR Code Options"] ++ notice ++
            preview_page (ref_generate "" level_M 10 4) (RefLib.ImageFile "PNG" test123_picture) ∧
    (notice = [] ∨ notice = [StError "Please enter text or URL to generate QR code."]).
Proof.
  apply (idle_run_shows_the_stored_code (ref_generate "" level_M 10 4) test123_world
           test123_picture (RefLib.ImageFile "PNG" test123_picture)).
  - exact test123_world_holds_preview.
  - right. reflexivity.
Defined.

Lemma preview_caption_is_cut_at_50_witness :
  ∃ w' caption,
    tab1_col2 (ref_generate long_content level_M 10 4) test123_world = (inr tt, w') ∧
    ui w' = ui test123_world ++
            [@StSubheader RefLib.libs "QR Code Preview";
             @StImageBytes RefLib.libs (RefLib.ImageFile "PNG" test123_picture) "Generated QR Code";
             @StDownloadButton RefLib.libs "Download QR Code" (RefLib.ImageFile "PNG" test123_picture)
               ("qrcode_" +:+ "" +:+ ".png") "image/png";
             StInfo caption] ∧
    ((str_len long_content <= 50)%nat → caption = "Encoded data: " +:+ long_content) ∧
    ((50 < str_len long_content)%nat →
       caption = "Encoded data: " +:+ str_take 50 long_content +:+ "..." ∧
       str_len caption = 67%nat ∧
       ∃ rest, rest ≠ "" ∧ long_content = str_take 50 long_content +:+ rest).
Proof.
  apply (preview_caption_is_cut_at_50 (ref_generate long_content level_M 10 4) test123_world
           test123_picture (RefLib.ImageFile "PNG" test123_picture)).
  exact test123_world_holds_preview.
Defined.

Lemma url_flag_reads_eight_characters_witness :
  (offers_url (found_page (ref_upload (RefLib.OtherFile "") "") "https://example.com")
              "https://example.com" ↔
   offers_url (found_page (ref_upload (RefLib.OtherFile "") "") "https://other.org/page")
              "https://other.org/page") ∧
  (∀ suffix,
     offers_url (found_page (ref_upload (RefLib.OtherFile "") "") "https://example.com")
                "https://example.com" →
     offers_url (found_page (ref_upload (RefLib.OtherFile "") "") ("https://example.com" +:+ suffix))
                ("https://example.com" +:+ suffix)).
Proof.
  apply (url_flag_reads_eight_characters (ref_upload (RefLib.OtherFile "") "")
           "https://example.com" "https://other.org/page").
  reflexivity.
Defined.

(** ** One outcome per decode, and files over many runs *)

Section OutcomeExtras.
Context {L : Libs}.
Implicit Types (inp : Inputs L) (w : World L) (page : list (UIEvent L)).

Lemma found_page_shows_only inp text t :
  shows_found (found_page inp text) t → t = text.
Proof.
  unfold shows_found, found_page.
  destruct (copy_clicked inp), (startswith_any text url_prefixes); simpl;
    rewrite ?elem_of_cons, ?elem_of_nil; intros H;
    repeat (destruct H as [H|H]; [try discriminate; congruence|]); contradiction.
Qed.

Lemma found_page_not_not_found inp text : ¬ shows_not_found (found_page inp text).
Proof.
  unfold shows_not_found, found_page.
  destruct (copy_clicked inp), (startswith_any text url_prefixes); simpl;
    rewrite ?elem_of_cons, ?elem_of_nil; intuition discriminate.
Qed.

(** X12: for every opened upload the right column of the decode tab shows
    exactly one of three outcomes: one decoded text, which is not empty; or
    "No QR code detected in the image."; or "Error processing image: ...".
    It never shows two of them, and never an empty decoded text. *)
Theorem decode_shows_exactly_one_outcome inp image w :
  ∃ w' page,
    tab2_col2 inp image w = (inr tt, w') ∧
    ui w' = ui w ++ page ∧
    ((∃ text, text ≠ "" ∧ shows_found page text ∧
              (∀ t, shows_found page t → t = text) ∧
              ¬ shows_not_found page ∧ (∀ cause, ¬ shows_image_error page cause)) ∨
     (shows_not_found page ∧
      (∀ t, ¬ shows_found page t) ∧ (∀ cause, ¬ shows_image_error page cause)) ∨
     ((∃ cause, shows_image_error page cause) ∧
      ¬ shows_not_found page ∧ (∀ t, ¬ shows_found page t))).
Proof.
  destruct (tab2_col2_cases inp image w) as [[text Hrun] | (leftover & e & Hrun)].
  - eexists _, _. split; [exact Hrun|]. split; [reflexivity|].
    pose proof (results_page_no_image_error inp text) as Hnoerr.
    unfold results_page in *. destruct (truthy text) eqn:Htext.
    + left. exists text. split; [apply truthy_nonempty, Htext|].
      split; [apply found_page_shows_found|].
      split; [apply found_page_shows_only|].
      split; [apply found_page_not_not_found | exact Hnoerr].
    + right. left. split; [apply list_elem_of_singleton; reflexivity|].
      split; [|exact Hnoerr].
      intros t H. apply list_elem_of_singleton in H. discriminate H.
  - eexists _, _. split; [exact Hrun|]. split; [reflexivity|].
    right. right. split.
    + exists (exn_str e). apply list_elem_of_singleton. reflexivity.
    + split.
      * intros H. apply list_elem_of_singleton in H. discriminate H.
      * intros t H. apply list_elem_of_singleton in H. discriminate H.
Qed.

(** X13: what a run leaves in the temporary directory stays: over any
    sequence of later runs whose temporary paths differ from [path], the
    file at [path] is neither removed nor rewritten. *)
Theorem later_runs_keep_a_left_file (inps : list (Inputs L)) w (path : string) :
  Forall (fun inp => tmp_filename inp ≠ path) inps →
  fs (runs inps w) !! path = fs w !! path.
Proof.
  intros Hall. revert w. induction Hall as [|inp inps Hinp _ IH]; intros w; [reflexivity|].
  simpl. rewrite IH. unfold run.
  destruct (script inp _) as [r w'] eqn:Hrun.
  apply script_frame in Hrun as [Hfs _]. simpl. rewrite Hfs by congruence. reflexivity.
Qed.

End OutcomeExtras.

Lemma later_runs_keep_a_left_file_witness :
  fs (runs [ref_upload (RefLib.ImageFile "BMP" (RefLib.solid_picture "RGB")) "/tmp/tmpx8.png";
            ref_generate "TEST123" level_M 10 4]
           (run (ref_upload (RefLib.ImageFile "JPEG" (RefLib.solid_picture "CMYK")) "/tmp/tmpx7.png")
                RefLib.fresh_world).2) !! "/tmp/tmpx7.png"
  = fs (run (ref_upload (RefLib.ImageFile "JPEG" (RefLib.solid_picture "CMYK")) "/tmp/tmpx7.png")
            RefLib.fresh_world).2 !! "/tmp/tmpx7.png".
Proof.
  apply (later_runs_keep_a_left_file (L := RefLib.libs)).
  repeat constructor; discriminate.
Defined.

(** * The encoder: version and geometry *)

(** ** The modelled packages *)

Section Package.
Import RefLib.
Variable sym : Symbology.

Lemma ref_best_fit_some ec data fuel start v :
  best_fit sym ec data fuel start = Some v →
  start <= v < start + Z.of_nat fuel ∧ can_hold sym ec v data = true ∧
  ∀ u, start <= u < v → can_hold sym ec u data = false.
Proof.
  revert start. induction fuel as [|fuel IH]; intros start; simpl; [discriminate|].
  destruct (can_hold sym ec start data) eqn:Hfit.
  - intros [= <-]. split; [lia|]. split; [exact Hfit|]. intros u Hu; lia.
  - intros Hbest. destruct (IH _ Hbest) as (Hrange & Hv & Hmin).
    split; [lia|]. split; [exact Hv|].
    intros u Hu. destruct (decide (u = start)) as [->|Hne]; [exact Hfit|].
    apply Hmin; lia.
Qed.

Lemma ref_best_fit_none ec data fuel start :
  best_fit sym ec data fuel start = None →
  ∀ u, start <= u < start + Z.of_nat fuel → can_hold sym ec u data = false.
Proof.
  revert start. induction fuel as [|fuel IH]; intros start; simpl.
  - intros _ u Hu; lia.
  - destruct (can_hold sym ec start data) eqn:Hfit; [discriminate|].
    intros Hbest u Hu. destruct (decide (u = start)) as [->|Hne]; [exact Hfit|].
    apply (IH _ Hbest); lia.
Qed.

(** What [make] returns is [made] at some version. *)
Lemma ref_make_inv qr fit qr' :
  make sym qr fit = inr qr' → ∃ v, qr' = made sym qr v.
Proof.
  unfold make. destruct fit.
  - destruct (best_fit _ _ _ _ _) as [v|]; [|discriminate].
    intros [= <-]. eauto.
  - destruct (can_hold _ _ _ _); [|discriminate]. intros [= <-]. eauto.
Qed.

(** [make(fit=True)] on version 1: the least version up to 40 that holds
    the data, or an error when there is none. *)
Lemma ref_make_fit qr :
  qrcode.version qr = 1 →
  match make sym qr true with
  | inr qr' =>
      qr' = made sym qr (qrcode.version qr') ∧
      1 <= qrcode.version qr' <= 40 ∧
      can_hold sym (qrcode.error_correction qr) (qrcode.version qr') (qrcode.data_list qr) = true ∧
      ∀ v, 1 <= v < qrcode.version qr' →
           can_hold sym (qrcode.error_correction qr) v (qrcode.data_list qr) = false
  | inl _ =>
      ∀ v, 1 <= v <= 40 →
           can_hold sym (qrcode.error_correction qr) v (qrcode.data_list qr) = false
  end.
Proof.
  intros Hv. unfold make. rewrite Hv.
  destruct (best_fit sym (qrcode.error_correction qr) (qrcode.data_list qr)
                     (Z.to_nat (41 - 1)) 1) as [v|] eqn:Hbest.
  - apply ref_best_fit_some in Hbest as (Hrange & Hfit & Hmin).
    simpl. split; [reflexivity|]. split; [lia|]. split; [exact Hfit | exact Hmin].
  - intros v Hrange. apply (ref_best_fit_none _ _ _ _ Hbest). lia.
Qed.

(** Drawing rectangles of one colour: a pixel has it when some rectangle
    covers it. *)
Lemma ref_fold_paint x y f rects col :
  Forall (fun r => rpaint r = f) rects →
  fold_left (fun col r => if covers x y r then rpaint r else col) rects col =
    if existsb (covers x y) rects then f else col.
Proof.
  intros Hall. revert col. induction Hall as [|r rects Hr _ IH]; intros col; simpl.
  - reflexivity.
  - rewrite IH. destruct (covers x y r); simpl; [|reflexivity].
    rewrite Hr. destruct (existsb _ _); reflexivity.
Qed.

(** A pixel is inside the box of module [(r, c)] exactly when its
    coordinates, divided by the box size, are the module's place on the
    page. *)
Lemma ref_covers_box b q x y r c f :
  0 < b →
  covers x y (mkRect ((c + q) * b) ((r + q) * b) ((c + q) * b + b - 1)
                     ((r + q) * b + b - 1) f) = true ↔
  x / b = c + q ∧ y / b = r + q.
Proof.
  intros Hb. unfold covers; simpl. rewrite !andb_true_iff, !Z.leb_le.
  pose proof (Z.div_mod x b ltac:(lia)) as Hx.
  pose proof (Z.mod_pos_bound x b Hb) as Hxm.
  pose proof (Z.div_mod y b ltac:(lia)) as Hy.
  pose proof (Z.mod_pos_bound y b Hb) as Hym.
  split.
  - intros [[[Hx0 Hx1] Hy0] Hy1]. split.
    + symmetry. apply (Z.div_unique x b (c + q) (x - (c + q) * b)); lia.
    + symmetry. apply (Z.div_unique y b (r + q) (y - (r + q) * b)); lia.
  - intros [Hcx Hry]. rewrite <- Hcx, <- Hry. nia.
Qed.

Lemma ref_module_rects_paint qr f :
  Forall (fun r => rpaint r = f) (module_rects qr f).
Proof.
  apply Forall_forall. intros rect Hin. unfold module_rects in Hin.
  apply list_elem_of_bind in Hin as (r & Hin & _).
  apply list_elem_of_bind in Hin as (c & Hin & _).
  destruct (qrcode.dark qr r c); [|by apply elem_of_nil in Hin].
  apply list_elem_of_singleton in Hin. subst rect. reflexivity.
Qed.

(** A pixel is covered by a drawn box exactly when the module its box
    belongs to lies in the grid and is dark. *)
Lemma ref_module_rects_cover qr f x y :
  0 < qrcode.box_size qr →
  existsb (covers x y) (module_rects qr f) = true ↔
  0 <= y / qrcode.box_size qr - qrcode.border qr < qrcode.modules_count qr ∧
  0 <= x / qrcode.box_size qr - qrcode.border qr < qrcode.modules_count qr ∧
  qrcode.dark qr (y / qrcode.box_size qr - qrcode.border qr)
                 (x / qrcode.box_size qr - qrcode.border qr) = true.
Proof.
  intros Hb. rewrite existsb_exists. split.
  - intros (rect & Hin & Hcov). apply list_elem_of_In in Hin. unfold module_rects in Hin.
    apply list_elem_of_bind in Hin as (r & Hin & Hr).
    apply list_elem_of_bind in Hin as (c & Hin & Hc).
    apply elem_of_seqZ in Hr, Hc.
    destruct (qrcode.dark qr r c) eqn:Hdark; [|by apply elem_of_nil in Hin].
    apply list_elem_of_singleton in Hin. subst rect.
    apply ref_covers_box in Hcov as [Hx Hy]; [|exact Hb].
    rewrite Hx, Hy. replace (r + _ - _) with r by lia. replace (c + _ - _) with c by lia.
    split; [lia|]. split; [lia | exact Hdark].
  - intros (Hr & Hc & Hdark).
    set (r := y / qrcode.box_size qr - qrcode.border qr) in *.
    set (c := x / qrcode.box_size qr - qrcode.border qr) in *.
    eexists. split.
    + apply list_elem_of_In. unfold module_rects.
      apply list_elem_of_bind. exists r. split; [|apply elem_of_seqZ; lia].
      apply list_elem_of_bind. exists c. split; [|apply elem_of_seqZ; lia].
      rewrite Hdark. apply list_elem_of_singleton. reflexivity.
    + apply ref_covers_box; [exact Hb|]. unfold r, c. lia.
Qed.

(** The picture [make_image] draws: its side, and the colour of each
    pixel. *)
Lemma ref_make_image_pixels qr fill back img :
  0 < qrcode.box_size qr →
  make_image qr fill back = inr img →
  let b := qrcode.box_size qr in
  let q := qrcode.border qr in
  let n := qrcode.modules_count qr in
  let side := (n + q * 2) * b in
  parse_colour fill = inr fill ∧ parse_colour back = inr back ∧
  pic_mode img = "RGB" ∧ pic_width img = side ∧ pic_height img = side ∧
  ∀ x y, 0 <= x < side → 0 <= y < side →
    getpixel img x y =
      Some (if bool_decide (0 <= y / b - q < n ∧ 0 <= x / b - q < n ∧
                            qrcode.dark qr (y / b - q) (x / b - q) = true)
            then fill else back).
Proof.
  intros Hb Himg b q n side. unfold make_image in Himg.
  destruct (qrcode.modules qr); [|discriminate].
  destruct (parse_colour fill) as [e|f] eqn:Hf; [discriminate|].
  destruct (parse_colour back) as [e|k] eqn:Hk; [discriminate|].
  assert (f = fill) as ->
    by (revert Hf; unfold parse_colour; destruct (startswith fill "#"); congruence).
  assert (k = back) as ->
    by (revert Hk; unfold parse_colour; destruct (startswith back "#"); congruence).
  injection Himg as <-. simpl.
  repeat (split; [reflexivity|]).
  intros x y Hx Hy. unfold getpixel; simpl. fold b q n side.
  replace ((0 <=? x) && (x <? side) && (0 <=? y) && (y <? side)) with true
    by (symmetry; rewrite !andb_true_iff, !Z.leb_le, !Z.ltb_lt; lia).
  rewrite (ref_fold_paint x y fill) by apply ref_module_rects_paint.
  pose proof (ref_module_rects_cover qr fill x y Hb) as Hcover. fold b q n in Hcover.
  destruct (existsb _ _).
  - rewrite bool_decide_eq_true_2 by (apply Hcover; reflexivity). reflexivity.
  - rewrite bool_decide_eq_false_2; [reflexivity|].
    intros H. apply Hcover in H. discriminate H.
Qed.

End Package.

(** ** What the generate button makes of them *)

Section EncoderClaims.
Import RefLib.
Variable sym : Symbology.
Implicit Types (inp : Inputs (libs_with sym)) (w : World (libs_with sym)).

(** The symbol the script asks for: version 1 with [fit=True], so the least
    version that holds the content at the option's level. *)
Lemma create_qr_code_best_fit inp w lv :
  error_correction inp = option_label lv →
  match make sym (requested_qr inp (level_constant lv)) true with
  | inr qr =>
      create_qr_code inp w = (inr qr, w) ∧
      1 <= qrcode.version qr <= 40 ∧
      can_hold sym (level_constant lv) (qrcode.version qr) [qr_data inp] = true ∧
      ∀ v, 1 <= v < qrcode.version qr →
           can_hold sym (level_constant lv) v [qr_data inp] = false
  | inl e =>
      create_qr_code inp w = (inl e, w) ∧
      ∀ v, 1 <= v <= 40 → can_hold sym (level_constant lv) v [qr_data inp] = false
  end.
Proof.
  intros Hopt.
  pose proof (create_qr_code_run inp w lv Hopt) as Hrun.
  pose proof (ref_make_fit sym (requested_qr inp (level_constant lv)) eq_refl) as Hfit.
  change (qr_make (requested_qr inp (level_constant lv)) true)
    with (make sym (requested_qr inp (level_constant lv)) true) in Hrun.
  destruct (make sym _ true) as [e|qr].
  - split; [exact Hrun | exact Hfit].
  - destruct Hfit as (_ & Hrange & Hhold & Hmin).
    split; [exact Hrun|]. split; [exact Hrange|]. split; [exact Hhold | exact Hmin].
Qed.

(** C6: the script asks [qrcode] for version 1 with [fit=True] (lines 118
    and 124).  With the version search of the specification's section 4.1,
    and whatever the capacity tables are, a content that some version up to
    40 holds at the chosen level gets the smallest version that holds it; a
    content too long for version 1 gets a larger version, not an error; and
    the version is a function of the content and the level alone, no input
    of the script sets it. *)
Theorem smallest_fitting_version_is_selected inp w lv :
  error_correction inp = option_label lv →
  (∃ v, 1 <= v <= 40 ∧ can_hold sym (level_constant lv) v [qr_data inp] = true) →
  ∃ qr,
    create_qr_code inp w = (inr qr, w) ∧
    1 <= qrcode.version qr <= 40 ∧
    can_hold sym (level_constant lv) (qrcode.version qr) [qr_data inp] = true ∧
    (∀ v, 1 <= v <= 40 → can_hold sym (level_constant lv) v [qr_data inp] = true →
          qrcode.version qr <= v) ∧
    (can_hold sym (level_constant lv) 1 [qr_data inp] = false → 1 < qrcode.version qr) ∧
    (∀ inp' w' qr',
       qr_data inp' = qr_data inp → error_correction inp' = error_correction inp →
       create_qr_code inp' w' = (inr qr', w') →
       qrcode.version qr' = qrcode.version qr).
Proof.
  intros Hopt (v0 & Hv0 & Hfit0).
  assert (Hsel : ∀ inp1 w1, qr_data inp1 = qr_data inp →
            error_correction inp1 = option_label lv →
            ∃ qr, create_qr_code inp1 w1 = (inr qr, w1) ∧
              1 <= qrcode.version qr <= 40 ∧
              can_hold sym (level_constant lv) (qrcode.version qr) [qr_data inp] = true ∧
              ∀ v, 1 <= v < qrcode.version qr →
                   can_hold sym (level_constant lv) v [qr_data inp] = false).
  { intros inp1 w1 Hdata1 Hopt1.
    pose proof (create_qr_code_best_fit inp1 w1 lv Hopt1) as Hq.
    rewrite Hdata1 in Hq.
    destruct (make sym _ true) as [e|qr].
    - destruct Hq as [_ Hnone]. rewrite (Hnone v0 Hv0) in Hfit0. discriminate.
    - exists qr. exact Hq. }
  destruct (Hsel inp w eq_refl Hopt) as (qr & Hrun & Hrange & Hfit & Hmin).
  exists qr. split; [exact Hrun|]. split; [exact Hrange|]. split; [exact Hfit|].
  assert (Hleast : ∀ v, 1 <= v <= 40 →
            can_hold sym (level_constant lv) v [qr_data inp] = true → qrcode.version qr <= v).
  { intros v Hv Hfitv. destruct (decide (qrcode.version qr <= v)) as [|Hlt]; [assumption|].
    rewrite Hmin in Hfitv by lia. discriminate. }
  split; [exact Hleast|]. split.
  - intros Hnot1. destruct (decide (qrcode.version qr = 1)) as [H1|]; [|lia].
    rewrite H1, Hnot1 in Hfit. discriminate.
  - intros inp' w' qr' Hdata' Hopt' Hrun'. rewrite Hopt in Hopt'.
    destruct (Hsel inp' w' Hdata' Hopt') as (qr'' & Hrun'' & Hrange' & Hfit' & Hmin').
    rewrite Hrun' in Hrun''. injection Hrun'' as <-.
    destruct (decide (qrcode.version qr' < qrcode.version qr)) as [Hlt|];
      [rewrite Hmin in Hfit' by lia; discriminate|].
    destruct (decide (qrcode.version qr < qrcode.version qr')) as [Hlt|]; [|lia].
    rewrite Hmin' in Hfit by lia. discriminate.
Qed.

(** C7: when the button produced an image, the PNG it stores, which the
    preview shows and offers for download, holds a square picture of
    [qr_size * (gridDimension + 2 * qr_border)] pixels a side, the grid
    dimension being that of the selected version.  With the drawing of the
    specification's section 4.1 the pixels of the [qr_size] x [qr_size] box
    of module [(r, c)] all have the fill colour if the module is dark and
    the background colour if not, and the [qr_border] boxes on each of the
    four sides have the background colour. *)
Theorem image_side_is_module_size_times_grid inp w w' :
  1 <= qr_size inp <= 20 → 0 <= qr_border inp <= 10 →
  generate_clicked inp = true → qr_data inp ≠ "" →
  generate_button inp w = (inr tt, w') →
  ∃ qr img png,
    create_qr_code inp w = (inr qr, w) ∧
    session_state w' !! "qr_image" = Some (VImage img) ∧
    session_state w' !! "qr_bytes" = Some (VBytes png) ∧
    Image_open (Libs := libs_with sym) png = inr img ∧
    tab1_col2 inp w' = (inr tt, after w' (session_state w') (fs w') (preview_page inp png)) ∧
    let n := grid_dimension sym (qrcode.version qr) in
    let side := qr_size inp * (n + 2 * qr_border inp) in
    qrcode.modules_count qr = n ∧
    Image_size (Libs := libs_with sym) img = (side, side) ∧
    ∃ fill back,
      getrgb (Libs := libs_with sym) (fill_color inp) = inr fill ∧
      getrgb (Libs := libs_with sym) (back_color inp) = inr back ∧
      (∀ r c i j, 0 <= r < n → 0 <= c < n → 0 <= i < qr_size inp → 0 <= j < qr_size inp →
         Image_getpixel (Libs := libs_with sym) img
             ((c + qr_border inp) * qr_size inp + i)
             ((r + qr_border inp) * qr_size inp + j) =
           Some (if qrcode.dark qr r c then fill else back)) ∧
      (∀ x y, 0 <= x < side → 0 <= y < side →
         x < qr_border inp * qr_size inp ∨ (qr_border inp + n) * qr_size inp <= x ∨
         y < qr_border inp * qr_size inp ∨ (qr_border inp + n) * qr_size inp <= y →
         Image_getpixel (Libs := libs_with sym) img x y = Some back).
Proof.
  intros Hsize Hborder Hclick Hdata Hrun.
  destruct (generate_button_inv inp w w' Hclick Hdata Hrun)
    as (qr & img & png & Hqr & Himg & Hsave & ->).
  exists qr, img, png. split; [exact Hqr|].
  pose proof (stored_holds_preview img png (session_state w) Hsave) as Hheld.
  split; [apply Hheld|]. split; [apply Hheld|].
  destruct (create_qr_code_inv _ _ _ _ Hqr) as (_ & ec & Hmk).
  change (make sym (requested_qr inp ec) true = inr qr) in Hmk.
  apply ref_make_inv in Hmk as [v Hmade].
  assert (Hb : qrcode.box_size qr = qr_size inp) by (rewrite Hmade; reflexivity).
  assert (Hq : qrcode.border qr = qr_border inp) by (rewrite Hmade; reflexivity).
  assert (Hn : qrcode.modules_count qr = grid_dimension sym (qrcode.version qr))
    by (rewrite Hmade; reflexivity).
  clear Hmade.
  change (make_image qr (fill_color inp) (back_color inp) = inr img) in Himg.
  change (save img "PNG" = inr png) in Hsave.
  assert (Hbox : 0 < qrcode.box_size qr) by lia.
  pose proof (ref_make_image_pixels qr _ _ img Hbox Himg) as Hpix. clear Hbox.
  cbv zeta in Hpix. rewrite Hb, Hq, Hn in Hpix.
  destruct Hpix as (Hfill & Hback & Hmode & Hwidth & Hheight & Hpix).
  set (n := grid_dimension sym (qrcode.version qr)) in *.
  set (b := qr_size inp) in *. set (q := qr_border inp) in *.
  split.
  { unfold save in Hsave.
    rewrite decide_False in Hsave by (rewrite Hmode; intros [_ ?]; discriminate).
    injection Hsave as <-. reflexivity. }
  split.
  { apply (tab1_col2_stored inp (mkWorld (stored img png (session_state w)) (fs w) (ui w))
             img png Hheld). }
  split; [exact Hn|].
  change (@Image_size (libs_with sym) img) with (pic_width img, pic_height img).
  change (@Image_getpixel (libs_with sym)) with getpixel.
  change (@getrgb (libs_with sym)) with parse_colour.
  split; [rewrite Hwidth, Hheight; f_equal; ring|].
  exists (fill_color inp), (back_color inp).
  split; [exact Hfill|]. split; [exact Hback|]. split.
  - intros r c i j Hr Hc Hi Hj.
    rewrite Hpix by nia.
    replace (((r + q) * b + j) / b) with (r + q)
      by (apply (Z.div_unique _ b (r + q) j); lia).
    replace (((c + q) * b + i) / b) with (c + q)
      by (apply (Z.div_unique _ b (c + q) i); lia).
    replace (r + q - q) with r by lia. replace (c + q - q) with c by lia.
    case_bool_decide as Hd.
    + destruct Hd as (_ & _ & ->). reflexivity.
    + destruct (qrcode.dark qr r c) eqn:Hdark; [|reflexivity].
      exfalso. apply Hd. split; [lia|]. split; [lia | reflexivity].
  - intros x y Hx Hy Hzone. rewrite Hpix by lia.
    rewrite bool_decide_eq_false_2; [reflexivity|].
    intros (Hr & Hc & _).
    assert (Hxb : b * (x / b) <= x < b * (x / b) + b)
      by (pose proof (Z.div_mod x b ltac:(lia)); pose proof (Z.mod_pos_bound x b ltac:(lia)); lia).
    assert (Hyb : b * (y / b) <= y < b * (y / b) + b)
      by (pose proof (Z.div_mod y b ltac:(lia)); pose proof (Z.mod_pos_bound y b ltac:(lia)); lia).
    nia.
Qed.

End EncoderClaims.

(** ** Concrete runs of the encoder *)

Lemma smallest_fitting_version_is_selected_witness :
  ∃ qr,
    create_qr_code (ref_generate "https://example.com/a/long/path?with=query" level_H 10 4)
                   RefLib.fresh_world = (inr qr, RefLib.fresh_world) ∧
    1 <= qrcode.version qr <= 40 ∧
    RefLib.fits qrcode.ERROR_CORRECT_H (qrcode.version qr)
                ["https://example.com/a/long/path?with=query"] = true ∧
    (∀ v, 1 <= v <= 40 →
          RefLib.fits qrcode.ERROR_CORRECT_H v
                      ["https://example.com/a/long/path?with=query"] = true →
          qrcode.version qr <= v) ∧
    (RefLib.fits qrcode.ERROR_CORRECT_H 1
                 ["https://example.com/a/long/path?with=query"] = false →
     1 < qrcode.version qr) ∧
    (∀ (inp' : Inputs RefLib.libs) w' qr',
       qr_data inp' = "https://example.com/a/long/path?with=query" →
       error_correction inp' = "H (30%)" →
       create_qr_code inp' w' = (inr qr', w') →
       qrcode.version qr' = qrcode.version qr).
Proof.
  apply (smallest_fitting_version_is_selected RefLib.byte_mode
           (ref_generate "https://example.com/a/long/path?with=query" level_H 10 4)
           RefLib.fresh_world level_H).
  - reflexivity.
  - exists 5. split; [lia | reflexivity].
Defined.

(** The sample content of 42 bytes gets version 5 at level H: version 4
    holds 34 bytes there, version 5 holds 44. *)
Lemma sample_version_is_5 :
  ∃ qr,
    create_qr_code (ref_generate "https://example.com/a/long/path?with=query" level_H 10 4)
                   RefLib.fresh_world = (inr qr, RefLib.fresh_world) ∧
    qrcode.version qr = 5 ∧ qrcode.modules_count qr = 37.
Proof. eexists. split; [reflexivity|]. split; reflexivity. Qed.

Lemma image_side_is_module_size_times_grid_witness :
  ∃ qr img png,
    create_qr_code (ref_generate "TEST123" level_M 10 4) RefLib.fresh_world
      = (inr qr, RefLib.fresh_world) ∧
    session_state (generate_button (ref_generate "TEST123" level_M 10 4) RefLib.fresh_world).2
      !! "qr_image" = Some (VImage img) ∧
    session_state (generate_button (ref_generate "TEST123" level_M 10 4) RefLib.fresh_world).2
      !! "qr_bytes" = Some (VBytes png) ∧
    Image_open png = inr img ∧
    tab1_col2 (ref_generate "TEST123" level_M 10 4)
              (generate_button (ref_generate "TEST123" level_M 10 4) RefLib.fresh_world).2 =
      (inr tt,
       after (generate_button (ref_generate "TEST123" level_M 10 4) RefLib.fresh_world).2
         (session_state
            (generate_button (ref_generate "TEST123" level_M 10 4) RefLib.fresh_world).2)
         (fs (generate_button (ref_generate "TEST123" level_M 10 4) RefLib.fresh_world).2)
         (preview_page (ref_generate "TEST123" level_M 10 4) png)) ∧
    let n := RefLib.grid_side (qrcode.version qr) in
    let side := 10 * (n + 2 * 4) in
    qrcode.modules_count qr = n ∧
    Image_size img = (side, side) ∧
    ∃ fill back,
      getrgb "#000000" = inr fill ∧ getrgb "#FFFFFF" = inr back ∧
      (∀ r c i j, 0 <= r < n → 0 <= c < n → 0 <= i < 10 → 0 <= j < 10 →
         Image_getpixel img ((c + 4) * 10 + i) ((r + 4) * 10 + j) =
           Some (if qrcode.dark qr r c then fill else back)) ∧
      (∀ x y, 0 <= x < side → 0 <= y < side →
         x < 4 * 10 ∨ (4 + n) * 10 <= x ∨ y < 4 * 10 ∨ (4 + n) * 10 <= y →
         Image_getpixel img x y = Some back).
Proof.
  apply (image_side_is_module_size_times_grid RefLib.byte_mode
           (ref_generate "TEST123" level_M 10 4) RefLib.fresh_world
           (generate_button (ref_generate "TEST123" level_M 10 4) RefLib.fresh_world).2).
  - simpl; lia.
  - simpl; lia.
  - reflexivity.
  - discriminate.
  - erewrite generate_button_run; [reflexivity | reflexivity | discriminate | reflexivity ..].
Defined.

(** "TEST123" at level M, module size 10 and border 4: version 1, 21
    modules and 290 pixels a side. *)
Lemma test123_side_is_290 :
  ∃ qr img,
    create_qr_code (ref_generate "TEST123" level_M 10 4) RefLib.fresh_world
      = (inr qr, RefLib.fresh_world) ∧
    qrcode.version qr = 1 ∧ qrcode.modules_count qr = 21 ∧
    qr_make_image (Libs := RefLib.libs) qr "#000000" "#FFFFFF" = inr img ∧
    Image_size img = (290, 290).
Proof. eexists _, _. repeat split; reflexivity. Qed.
